(** * Order lifecycle and payment reconciliation of the shopping backend

    A shallow embedding of the order controller (createOrder, getOrderById,
    updateOrder), of the payment controller (createPaymentIntent,
    confirmPayment, handleWebhook, processRefund) and of the Order model
    (column defaults, validators, the beforeCreate hook), followed by the
    properties of the order lifecycle.

    The relational store and the payment provider are external collaborators.
    They are modelled as explicit state (tables as finite maps, the provider's
    payment intents as a finite map) that the handlers reach through a small
    state-and-exception monad.  Every call that leaves the process (a query,
    a commit, a provider request) is a numbered I/O step which the
    environment may make throw, so that the catch blocks of the handlers are
    exercised the way the JavaScript exercises them. *)

From Stdlib Require Import Ascii String ZArith QArith Qround DecimalString DecimalPos Lia.
From stdpp Require Import gmap strings list fin_maps.

Open Scope string_scope.
Open Scope Z_scope.

(** ** JavaScript numbers

    Prices and monetary amounts are JavaScript Numbers.  No algebraic law is
    assumed of them: the development only uses the operations the handlers
    apply, so every statement below holds for IEEE doubles as well as for
    exact rationals. *)

Class JSNumber := {
  num : Type;
  num_zero : num;                  (* the literal 0 *)
  num_tenth : num;                 (* the literal 0.1 *)
  num_ten : num;                   (* the literal 10.00 *)
  num_add : num → num → num;       (* a + b *)
  num_mul : num → num → num;       (* a * b *)
  num_of_int : Z → num;            (* an integer read as a Number *)
  num_min0 : num → bool;           (* the validator  min: 0 *)
  num_truthy : num → bool;         (* ToBoolean *)
  num_cents : num → Z;             (* Math.round(a * 100) *)
  num_from_cents : Z → num         (* n / 100 *)
}.

(** ** Strings as the handlers use them *)

(** ToBoolean on a string: only the empty string is falsy. *)
Definition str_truthy (s : string) : bool :=
  match s with EmptyString => false | _ => true end.

(** ToBoolean on a value that may be undefined or null. *)
Definition opt_truthy {A} (truthy : A → bool) (o : option A) : bool :=
  match o with Some a => truthy a | None => false end.

Definition upper_ascii (c : ascii) : ascii :=
  let n := nat_of_ascii c in
  if (97 <=? n)%nat && (n <=? 122)%nat then ascii_of_nat (n - 32) else c.

(** String.prototype.toUpperCase, on the ASCII range. *)
Fixpoint toUpperCase (s : string) : string :=
  match s with
  | EmptyString => EmptyString
  | String c r => String (upper_ascii c) (toUpperCase r)
  end.

(** String.prototype.substr(start, length). *)
Definition substr (start len : nat) (s : string) : string :=
  String.substring start len s.

(** The digit characters of radix 36: 0-9 then a-z. *)
Definition digit36 (d : nat) : ascii :=
  if (d <? 10)%nat then ascii_of_nat (48 + d) else ascii_of_nat (87 + d).

Fixpoint digits36 (ds : list nat) : string :=
  match ds with
  | [] => EmptyString
  | d :: r => String (digit36 d) (digits36 r)
  end.

(** Number.prototype.toString(36) of a value in [0, 1), given the fraction
    digits the engine prints for it: 0 prints as "0", any other value as
    "0." followed by at least one digit. *)
Definition toString36 (fraction : list nat) : string :=
  match fraction with
  | [] => "0"
  | _ => "0." +:+ digits36 fraction
  end.

(** Decimal printing of a non-negative integer (Date.now() in a string
    concatenation, id.toString()). *)
Definition dec_string (n : N) : string :=
  NilEmpty.string_of_uint (N.to_uint n).

(** An integer column compared with a string: the store parses the decimal
    digits and rejects anything else. *)
Definition parse_id (s : string) : option Z :=
  match s with
  | EmptyString => None
  | _ => (λ u, Z.of_N (N.of_uint u)) <$> NilEmpty.uint_of_string s
  end.

(** ** Data model *)

Inductive OrderStatus := pending | processing | shipped | delivered | cancelled.
Inductive PaymentStatus := pay_pending | paid | failed | refunded.
Inductive Role := role_user | role_admin | role_super_admin.

#[global] Instance OrderStatus_eq_dec : EqDecision OrderStatus.
Proof. solve_decision. Defined.
#[global] Instance PaymentStatus_eq_dec : EqDecision PaymentStatus.
Proof. solve_decision. Defined.
#[global] Instance Role_eq_dec : EqDecision Role.
Proof. solve_decision. Defined.

(** The ENUM column of status: the five labels, anything else is refused
    by the store. *)
Definition parse_status (s : string) : option OrderStatus :=
  if String.eqb s "pending" then Some pending
  else if String.eqb s "processing" then Some processing
  else if String.eqb s "shipped" then Some shipped
  else if String.eqb s "delivered" then Some delivered
  else if String.eqb s "cancelled" then Some cancelled
  else None.

Record Address := {
  street : string; city : string; state : string;
  zipCode : string; country : string
}.

Record User := { user_id : Z; role : Role }.

(** Only the columns of Product that this scope reads or writes. *)
Record Product := { product_name : string; stock : Z }.

Definition decrement_stock (by_ : Z) (p : Product) : Product :=
  {| product_name := product_name p; stock := stock p - by_ |}.

(** What a rejected promise carries. *)
Inductive Exn :=
  | DatabaseError | ValidationError | UniqueConstraintError
  | TransactionError | StripeError | SignatureVerificationError.

(** The result of an awaited call. *)
Inductive Outcome (A : Type) :=
  | Ok (a : A)
  | Throw (e : Exn).
Arguments Ok {A} a.
Arguments Throw {A} e.

Section Shop.
Context `{JSNumber}.

Record Item := { productId : Z; quantity : Z; price : num }.

(** A row of the orders table.  The columns estimatedDelivery, cancelledAt,
    cancelledBy and cancelReason are never written by the handlers of this
    scope and are left out. *)
Record Order := {
  id : Z;
  orderNumber : string;
  userId : Z;
  items : list Item;
  subtotal : num;
  tax : num;
  shipping : num;
  discount : num;
  totalAmount : num;
  status : OrderStatus;
  paymentStatus : PaymentStatus;
  paymentMethod : option string;
  paymentId : option string;
  shippingAddress : Address;
  billingAddress : option Address;
  notes : option string;
  trackingNumber : option string
}.

(** The values handed to Order.create. *)
Record OrderAttrs := {
  a_orderNumber : option string;
  a_userId : Z;
  a_items : list Item;
  a_subtotal : num;
  a_tax : option num;
  a_shipping : option num;
  a_discount : option num;
  a_totalAmount : num;
  a_shippingAddress : Address;
  a_billingAddress : option Address;
  a_notes : option string
}.

(** The tables: the rows of orders in insertion order, the products by
    primary key, and the sequence behind the autoIncrement id of orders. *)
Record Database := {
  orders : list Order;
  products : gmap Z Product;
  next_order_id : Z
}.

Inductive IntentStatus :=
  | requires_payment_method | requires_action | intent_processing
  | succeeded | canceled.

#[global] Instance IntentStatus_eq_dec : EqDecision IntentStatus.
Proof. solve_decision. Defined.

(** A payment intent as the provider reports it. *)
Record PaymentIntent := {
  pi_id : string;
  pi_status : IntentStatus;
  pi_amount : Z;
  pi_client_secret : string;
  metadata_orderId : option string;
  metadata_userId : option string
}.

Record Refund := {
  refund_id : string;
  refund_payment_intent : string;
  refund_amount : Z;
  refund_status : string
}.

Record Stripe := {
  intents : gmap string PaymentIntent;
  refunds : list Refund
}.

Record World := { db : Database; stripe : Stripe }.

(** ** The environment of one request *)

Record Env := {
  now : N;                    (* Date.now() *)
  random36 : list nat;        (* fraction digits of Math.random().toString(36) *)
  new_intent_id : string;     (* identifiers the provider allocates *)
  new_client_secret : string;
  new_refund_id : string;
  fault : nat → bool          (* fault k: the k-th I/O step of the request throws *)
}.

Inductive TxState :=
  | TxNone
  | TxOpen (work : Database)   (* the uncommitted view of the tables *)
  | TxFinished.

Record Local := { world : World; txn : TxState; tick : nat }.

(** ** The monad of handlers: reader of the environment, state, exceptions *)

Definition M (A : Type) : Type := Env → Local → Local * Outcome A.

Definition ret {A} (a : A) : M A := λ _ s, (s, Ok a).

Definition bind {A B} (m : M A) (k : A → M B) : M B :=
  λ env s, match m env s with
           | (s', Ok a) => k a env s'
           | (s', Throw e) => (s', Throw e)
           end.

Definition throw {A} (e : Exn) : M A := λ _ s, (s, Throw e).

(** try { body } catch (error) { handler } *)
Definition try_catch {A} (body : M A) (handler : Exn → M A) : M A :=
  λ env s, match body env s with
           | (s', Throw e) => handler e env s'
           | r => r
           end.

(** One step that leaves the process: it consumes a tick and throws when the
    environment says so. *)
Definition io {A} (e : Exn) (m : M A) : M A :=
  λ env s,
    let s' := {| world := world s; txn := txn s; tick := S (tick s) |} in
    if fault env (tick s) then (s', Throw e) else m env s'.

End Shop.

Declare Scope shop_scope.
Delimit Scope shop_scope with shop.
Notation "'await' x ':=' m 'in' k" := (bind m (λ x, k))
  (at level 10, x name, m at level 100, k at level 200,
   format "'[v' 'await'  x  :=  m  'in'  '/' k ']'") : shop_scope.
Open Scope shop_scope.

(** ** The object-relational layer and the provider client *)

Section Handlers.
Context `{JSNumber}.

Definition with_txn (t : TxState) (s : Local) : Local :=
  {| world := world s; txn := t; tick := tick s |}.

Definition with_db (d : Database) (s : Local) : Local :=
  {| world := {| db := d; stripe := stripe (world s) |};
     txn := txn s; tick := tick s |}.

Definition with_stripe (p : Stripe) (s : Local) : Local :=
  {| world := {| db := db (world s); stripe := p |};
     txn := txn s; tick := tick s |}.

(** sequelize.transaction(): the transaction starts from the committed
    tables. *)
Definition sequelize_transaction : M unit :=
  io DatabaseError (λ _ s, (with_txn (TxOpen (db (world s))) s, Ok tt)).

(** transaction.commit(): the uncommitted view becomes the tables. *)
Definition transaction_commit : M unit :=
  io DatabaseError (λ _ s,
    match txn s with
    | TxOpen work => (with_txn TxFinished (with_db work s), Ok tt)
    | _ => (s, Throw TransactionError)
    end).

(** transaction.rollback(): the uncommitted view is dropped; a transaction
    that is already finished cannot be rolled back. *)
Definition transaction_rollback : M unit :=
  io DatabaseError (λ _ s,
    match txn s with
    | TxOpen _ => (with_txn TxFinished s, Ok tt)
    | _ => (s, Throw TransactionError)
    end).

(** *** The Order model *)

Definition generate_order_number (env : Env) : string :=
  "ORD-" +:+ dec_string (now env) +:+ "-"
    +:+ toUpperCase (substr 2 9 (toString36 (random36 env))).

(** hooks.beforeCreate: generate the order number if not provided. *)
Definition beforeCreate (env : Env) (a : OrderAttrs) : OrderAttrs :=
  if negb (opt_truthy str_truthy (a_orderNumber a)) then
    {| a_orderNumber := Some (generate_order_number env);
       a_userId := a_userId a; a_items := a_items a;
       a_subtotal := a_subtotal a; a_tax := a_tax a;
       a_shipping := a_shipping a; a_discount := a_discount a;
       a_totalAmount := a_totalAmount a;
       a_shippingAddress := a_shippingAddress a;
       a_billingAddress := a_billingAddress a; a_notes := a_notes a |}
  else a.

(** validate.isValidItems *)
Definition isValidItems (value : list Item) : bool :=
  negb (Nat.eqb (length value) 0).

(** The row Order.create builds: given values, then column defaults
    (tax, shipping, discount: 0; status and paymentStatus: 'pending'). *)
Definition build_order (i : Z) (a : OrderAttrs) : Order :=
  {| id := i;
     orderNumber := default "" (a_orderNumber a);
     userId := a_userId a;
     items := a_items a;
     subtotal := a_subtotal a;
     tax := default num_zero (a_tax a);
     shipping := default num_zero (a_shipping a);
     discount := default num_zero (a_discount a);
     totalAmount := a_totalAmount a;
     status := pending;
     paymentStatus := pay_pending;
     paymentMethod := None;
     paymentId := None;
     shippingAddress := a_shippingAddress a;
     billingAddress := a_billingAddress a;
     notes := a_notes a;
     trackingNumber := None |}.

(** The validators of the model: isValidItems and min: 0 on the five
    amounts.  allowNull: false holds of userId, items, subtotal, totalAmount
    and shippingAddress by their types, and of orderNumber once the hook
    has run. *)
Definition validate_order (o : Order) : bool :=
  isValidItems (items o)
  && num_min0 (subtotal o) && num_min0 (tax o) && num_min0 (shipping o)
  && num_min0 (discount o) && num_min0 (totalAmount o).

(** unique: true on orderNumber *)
Definition order_number_taken (n : string) (d : Database) : bool :=
  existsb (λ o, String.eqb (orderNumber o) n) (orders d).

Definition insert_order (o : Order) (d : Database) : Database :=
  {| orders := orders d ++ [o];
     products := products d;
     next_order_id := next_order_id d + 1 |}.

(** Order.create(values, { transaction }): the hook, the column defaults,
    the validators, the unique index, the insertion.  The order number is
    taken to be in place when the row is checked, as the comment of the hook
    has it (generate order number if not provided). *)
Definition Order_create (a : OrderAttrs) : M Order :=
  io DatabaseError (λ env s,
    match txn s with
    | TxOpen work =>
        let o := build_order (next_order_id work) (beforeCreate env a) in
        if negb (validate_order o) then (s, Throw ValidationError)
        else if order_number_taken (orderNumber o) work
        then (s, Throw UniqueConstraintError)
        else (with_txn (TxOpen (insert_order o work)) s, Ok o)
    | _ => (s, Throw TransactionError)
    end).

Definition decrement_product (by_ pid : Z) (d : Database) : Database :=
  {| orders := orders d;
     products := alter (decrement_stock by_) pid (products d);
     next_order_id := next_order_id d |}.

(** Product.decrement('stock', { by, where: { id }, transaction }):
    UPDATE products SET stock = stock - by WHERE id = ...; a row that does
    not exist is not an error. *)
Definition Product_decrement (by_ pid : Z) : M unit :=
  io DatabaseError (λ _ s,
    match txn s with
    | TxOpen work => (with_txn (TxOpen (decrement_product by_ pid work)) s, Ok tt)
    | _ => (s, Throw TransactionError)
    end).

(** SELECT ... FROM orders WHERE id = i *)
Definition find_order (i : Z) (rows : list Order) : option Order :=
  List.find (λ o, id o =? i) rows.

(** Order.findByPk(id), outside any transaction *)
Definition Order_findByPk (i : Z) : M (option Order) :=
  io DatabaseError (λ _ s, (s, Ok (find_order i (orders (db (world s)))))).

(** Order.findByPk with the identifier as text (a metadata value). *)
Definition Order_findByPk_text (i : string) : M (option Order) :=
  match parse_id i with
  | Some n => Order_findByPk n
  | None => io DatabaseError (throw DatabaseError)
  end.

(** SELECT ... FROM orders WHERE id = i AND user_id = uid *)
Definition find_user_order (i uid : Z) (rows : list Order) : option Order :=
  List.find (λ o, (id o =? i) && (userId o =? uid)) rows.

(** Order.findOne({ where: { id, userId } }) *)
Definition Order_findOne (i uid : Z) : M (option Order) :=
  io DatabaseError (λ _ s,
    (s, Ok (find_user_order i uid (orders (db (world s)))))).

(** The values handed to order.update: only the keys that are present
    change. *)
Record UpdateData := {
  u_status : option string;
  u_paymentStatus : option PaymentStatus;
  u_paymentId : option string;
  u_trackingNumber : option string;
  u_notes : option string
}.

Definition apply_update (o : Order) (st : option OrderStatus) (u : UpdateData) : Order :=
  {| id := id o; orderNumber := orderNumber o; userId := userId o;
     items := items o; subtotal := subtotal o; tax := tax o;
     shipping := shipping o; discount := discount o;
     totalAmount := totalAmount o;
     status := default (status o) st;
     paymentStatus := default (paymentStatus o) (u_paymentStatus u);
     paymentMethod := paymentMethod o;
     paymentId := match u_paymentId u with
                  | Some p => Some p
                  | None => paymentId o
                  end;
     shippingAddress := shippingAddress o;
     billingAddress := billingAddress o;
     notes := match u_notes u with Some n => Some n | None => notes o end;
     trackingNumber := match u_trackingNumber u with
                       | Some t => Some t
                       | None => trackingNumber o
                       end |}.

(** UPDATE orders SET ... WHERE id = (the id of the instance) *)
Definition update_rows (o : Order) (rows : list Order) : list Order :=
  map (λ row, if id row =? id o then o else row) rows.

Definition store_order (o : Order) (d : Database) : Database :=
  {| orders := update_rows o (orders d);
     products := products d;
     next_order_id := next_order_id d |}.

(** order.update(values): the instance takes the values and its row is
    rewritten.  A status outside the ENUM is refused. *)
Definition order_update (o : Order) (u : UpdateData) : M Order :=
  io DatabaseError (λ _ s,
    match u_status u with
    | Some label =>
        match parse_status label with
        | Some st =>
            let o' := apply_update o (Some st) u in
            (with_db (store_order o' (db (world s))) s, Ok o')
        | None => (s, Throw DatabaseError)
        end
    | None =>
        let o' := apply_update o None u in
        (with_db (store_order o' (db (world s))) s, Ok o')
    end).

(** *** The provider client *)

(** stripe.paymentIntents.create({ amount, currency, metadata }) *)
Definition stripe_paymentIntents_create (amount : Z) (order_id user_id : string)
  : M PaymentIntent :=
  io StripeError (λ env s,
    let p := {| pi_id := new_intent_id env;
                pi_status := requires_payment_method;
                pi_amount := amount;
                pi_client_secret := new_client_secret env;
                metadata_orderId := Some order_id;
                metadata_userId := Some user_id |} in
    (with_stripe {| intents := <[pi_id p := p]> (intents (stripe (world s)));
                    refunds := refunds (stripe (world s)) |} s, Ok p)).

(** stripe.paymentIntents.retrieve(id): an unknown id is a provider error. *)
Definition stripe_paymentIntents_retrieve (i : string) : M PaymentIntent :=
  io StripeError (λ _ s,
    match intents (stripe (world s)) !! i with
    | Some p => (s, Ok p)
    | None => (s, Throw StripeError)
    end).

(** stripe.refunds.create({ payment_intent, amount, reason, metadata }) *)
Definition stripe_refunds_create (payment_intent : string) (amount : Z) : M Refund :=
  io StripeError (λ env s,
    let r := {| refund_id := new_refund_id env;
                refund_payment_intent := payment_intent;
                refund_amount := amount;
                refund_status := "succeeded" |} in
    (with_stripe {| intents := intents (stripe (world s));
                    refunds := r :: refunds (stripe (world s)) |} s, Ok r)).

(** ** Requests and responses *)

(** req.body.items: absent or falsy, some value that is not an array, or an
    array of line items. *)
Inductive JsItems :=
  | ItemsMissing
  | ItemsNotArray
  | ItemsArray (l : list Item).

Record CreateOrderBody := {
  b_items : JsItems;
  b_shippingAddress : option Address;
  b_billingAddress : option Address;
  b_notes : option string
}.

Record UpdateOrderBody := {
  b_status : option string;
  b_trackingNumber : option string;
  b_update_notes : option string
}.

Record RefundBody := {
  b_orderId : option Z;
  b_reason : option string;
  b_amount : option num
}.

(** A webhook delivery: whether the signature header verifies against the
    raw body under the shared secret, and the event the body carries. *)
Record WebhookRequest := {
  signature_valid : bool;
  event_type : string;
  event_object : PaymentIntent
}.

Inductive Body :=
  | Message (success : bool) (message : string)
  | OrderData (data : option Order)
  | IntentCreated (clientSecret : string) (orderId : Z)
  | PaymentConfirmed (message : string) (order : Order)
  | RefundProcessed (message : string) (refundId : string) (amount : num)
                    (refundStatus : string)
  | Received
  | ErrorMessage (error : string)
  | Text (text : string).

Record Response := { code : nat; body : Body }.

(** res.status(code).json(body) *)
Definition respond (c : nat) (b : Body) : M Response :=
  ret {| code := c; body := b |}.

Definition int_truthy (n : Z) : bool := negb (n =? 0).

(** id.toString() *)
Definition int_string (n : Z) : string :=
  if n <? 0 then "-" +:+ dec_string (Z.abs_N n) else dec_string (Z.to_N n).

(** ** The order controller *)

Definition line_total (it : Item) : num :=
  num_mul (price it) (num_of_int (quantity it)).

(** for (const item of items) subtotal += item.price * item.quantity *)
Fixpoint sum_items (subtotal : num) (l : list Item) : num :=
  match l with
  | [] => subtotal
  | it :: r => sum_items (num_add subtotal (line_total it)) r
  end.

(** for (const item of items) await Product.decrement(...) *)
Fixpoint decrement_items (l : list Item) : M unit :=
  match l with
  | [] => ret tt
  | it :: r =>
      await _ := Product_decrement (quantity it) (productId it) in
      decrement_items r
  end.

Definition createOrder (user : User) (b : CreateOrderBody) : M Response :=
  await _ := sequelize_transaction in
  try_catch
    (match b_items b with
     | ItemsMissing | ItemsNotArray | ItemsArray [] =>
         respond 400 (Message false "Items are required and must be a non-empty array")
     | ItemsArray l =>
         match b_shippingAddress b with
         | None => respond 400 (Message false "Shipping address is required")
         | Some address =>
             let subtotal := sum_items num_zero l in
             let tax := num_mul subtotal num_tenth in
             let shipping := num_ten in
             let totalAmount := num_add (num_add subtotal tax) shipping in
             await order := Order_create
               {| a_orderNumber := None;
                  a_userId := user_id user;
                  a_items := l;
                  a_subtotal := subtotal;
                  a_tax := Some tax;
                  a_shipping := Some shipping;
                  a_discount := None;
                  a_totalAmount := totalAmount;
                  a_shippingAddress := address;
                  a_billingAddress :=
                    Some (default address (b_billingAddress b));
                  a_notes := b_notes b |} in
             await _ := decrement_items l in
             await _ := transaction_commit in
             await createdOrder := Order_findByPk (id order) in
             respond 201 (OrderData createdOrder)
         end
     end)
    (λ _,
       await _ := transaction_rollback in
       respond 500 (Message false "Internal server error")).

Definition getOrderById (user : User) (i : Z) : M Response :=
  try_catch
    (await order := Order_findOne i (user_id user) in
     match order with
     | None => respond 404 (Message false "Order not found")
     | Some o => respond 200 (OrderData (Some o))
     end)
    (λ _, respond 500 (Message false "Internal server error")).

Definition updateOrder (user : User) (i : Z) (b : UpdateOrderBody) : M Response :=
  try_catch
    (await order := Order_findByPk i in
     match order with
     | None => respond 404 (Message false "Order not found")
     | Some o =>
         if bool_decide (role user = role_user)
            && negb (userId o =? user_id user)
         then respond 403 (Message false "Access denied")
         else
           let updateData :=
             {| u_status :=
                  if opt_truthy str_truthy (b_status b) then b_status b else None;
                u_paymentStatus := None;
                u_paymentId := None;
                u_trackingNumber :=
                  if opt_truthy str_truthy (b_trackingNumber b)
                  then b_trackingNumber b else None;
                u_notes :=
                  if opt_truthy str_truthy (b_update_notes b)
                  then b_update_notes b else None |} in
           await _ := order_update o updateData in
           await updatedOrder := Order_findByPk i in
           respond 200 (OrderData updatedOrder)
     end)
    (λ _, respond 500 (Message false "Internal server error")).

(** ** The payment controller *)

Definition createPaymentIntent (user : User) (orderId : option Z) : M Response :=
  try_catch
    (match orderId with
     | Some i =>
         if negb (int_truthy i)
         then respond 400 (Message false "Order ID is required")
         else
           await order := Order_findOne i (user_id user) in
           match order with
           | None => respond 404 (Message false "Order not found")
           | Some o =>
               if bool_decide (paymentStatus o = paid)
               then respond 400 (Message false "Order is already paid")
               else
                 await paymentIntent :=
                   stripe_paymentIntents_create
                     (num_cents (totalAmount o))
                     (int_string (id o)) (int_string (user_id user)) in
                 respond 200 (IntentCreated (pi_client_secret paymentIntent) (id o))
           end
     | None => respond 400 (Message false "Order ID is required")
     end)
    (λ _, respond 500 (Message false "Error creating payment intent")).

Definition confirmPayment (user : User) (orderId : option Z)
    (paymentIntentId : option string) : M Response :=
  try_catch
    (match orderId, paymentIntentId with
     | Some i, Some pid =>
         if negb (int_truthy i) || negb (str_truthy pid)
         then respond 400
                (Message false "Order ID and Payment Intent ID are required")
         else
           await order := Order_findOne i (user_id user) in
           match order with
           | None => respond 404 (Message false "Order not found")
           | Some o =>
               await paymentIntent := stripe_paymentIntents_retrieve pid in
               if bool_decide (pi_status paymentIntent = succeeded)
               then
                 await o' := order_update o
                   {| u_status := Some "processing";
                      u_paymentStatus := Some paid;
                      u_paymentId := Some pid;
                      u_trackingNumber := None;
                      u_notes := None |} in
                 respond 200 (PaymentConfirmed "Payment confirmed successfully" o')
               else respond 400 (Message false "Payment not completed")
           end
     | _, _ =>
         respond 400 (Message false "Order ID and Payment Intent ID are required")
     end)
    (λ _, respond 500 (Message false "Error confirming payment")).

Definition handlePaymentSuccess (paymentIntent : PaymentIntent) : M unit :=
  try_catch
    (match metadata_orderId paymentIntent with
     | Some orderId =>
         if str_truthy orderId then
           await order := Order_findByPk_text orderId in
           match order with
           | Some o =>
               await _ := order_update o
                 {| u_status := Some "processing";
                    u_paymentStatus := Some paid;
                    u_paymentId := Some (pi_id paymentIntent);
                    u_trackingNumber := None;
                    u_notes := None |} in
               ret tt
           | None => ret tt
           end
         else ret tt
     | None => ret tt
     end)
    (λ _, ret tt).

Definition handlePaymentFailure (paymentIntent : PaymentIntent) : M unit :=
  try_catch
    (match metadata_orderId paymentIntent with
     | Some orderId =>
         if str_truthy orderId then
           await order := Order_findByPk_text orderId in
           match order with
           | Some o =>
               await _ := order_update o
                 {| u_status := None;
                    u_paymentStatus := Some failed;
                    u_paymentId := Some (pi_id paymentIntent);
                    u_trackingNumber := None;
                    u_notes := None |} in
               ret tt
           | None => ret tt
           end
         else ret tt
     | None => ret tt
     end)
    (λ _, ret tt).

(** stripe.webhooks.constructEvent(body, signature, secret) *)
Definition stripe_webhooks_constructEvent (r : WebhookRequest) : M WebhookRequest :=
  if signature_valid r then ret r else throw SignatureVerificationError.

(** Two try blocks in sequence: the first returns 400 from its catch, the
    second dispatches on the event type. *)
Definition handleWebhook (r : WebhookRequest) : M Response :=
  await verified :=
    try_catch
      (await event := stripe_webhooks_constructEvent r in ret (inr event))
      (λ _,
         await rejected := respond 400 (Text "Webhook Error") in
         ret (inl rejected)) in
  match verified with
  | inl rejected => ret rejected
  | inr event =>
      try_catch
        (await _ :=
           (if String.eqb (event_type event) "payment_intent.succeeded"
            then handlePaymentSuccess (event_object event)
            else if String.eqb (event_type event) "payment_intent.payment_failed"
            then handlePaymentFailure (event_object event)
            else ret tt) in
         respond 200 Received)
        (λ _, respond 500 (ErrorMessage "Webhook processing failed"))
  end.

Definition processRefund (b : RefundBody) : M Response :=
  try_catch
    (match b_orderId b, b_reason b with
     | Some orderId, Some reason =>
         if negb (int_truthy orderId) || negb (str_truthy reason)
         then respond 400 (Message false "Order ID and reason are required")
         else
           await order := Order_findByPk orderId in
           match order with
           | None => respond 404 (Message false "Order not found")
           | Some o =>
               if negb (bool_decide (paymentStatus o = paid))
               then respond 400 (Message false "Order is not paid")
               else
                 match paymentId o with
                 | Some payment =>
                     if negb (str_truthy payment)
                     then respond 400
                            (Message false "No payment ID found for this order")
                     else
                       let refundAmount :=
                         match b_amount b with
                         | Some amount =>
                             if num_truthy amount then num_cents amount
                             else num_cents (totalAmount o)
                         | None => num_cents (totalAmount o)
                         end in
                       await refund := stripe_refunds_create payment refundAmount in
                       await _ := order_update o
                         {| u_status := Some "cancelled";
                            u_paymentStatus := Some refunded;
                            u_paymentId := None;
                            u_trackingNumber := None;
                            u_notes := None |} in
                       respond 200
                         (RefundProcessed "Refund processed successfully"
                            (refund_id refund)
                            (num_from_cents (refund_amount refund))
                            (refund_status refund))
                 | None =>
                     respond 400
                       (Message false "No payment ID found for this order")
                 end
           end
     | _, _ => respond 400 (Message false "Order ID and reason are required")
     end)
    (λ _, respond 500 (Message false "Error processing refund")).

(** ** The system as a transition function *)

Inductive Request :=
  | CreateOrder (user : User) (b : CreateOrderBody)
  | GetOrderById (user : User) (i : Z)
  | UpdateOrder (user : User) (i : Z) (b : UpdateOrderBody)
  | CreatePaymentIntent (user : User) (orderId : option Z)
  | ConfirmPayment (user : User) (orderId : option Z)
                   (paymentIntentId : option string)
  | Webhook (r : WebhookRequest)
  | ProcessRefund (b : RefundBody).

Definition handler (r : Request) : M Response :=
  match r with
  | CreateOrder u b => createOrder u b
  | GetOrderById u i => getOrderById u i
  | UpdateOrder u i b => updateOrder u i b
  | CreatePaymentIntent u i => createPaymentIntent u i
  | ConfirmPayment u i p => confirmPayment u i p
  | Webhook r => handleWebhook r
  | ProcessRefund b => processRefund b
  end.

(** One request against the world.  A handler whose promise is rejected
    sends no response. *)
Definition run (h : M Response) (env : Env) (w : World) : World * option Response :=
  match h env {| world := w; txn := TxNone; tick := 0 |} with
  | (s, Ok r) => (world s, Some r)
  | (s, Throw _) => (world s, None)
  end.

Definition serve (env : Env) (r : Request) (w : World) : World * option Response :=
  run (handler r) env w.

End Handlers.

(** ** Vocabulary of the properties *)

Section Properties.
Context `{JSNumber}.

(** No I/O step of the request throws. *)
Definition no_faults (env : Env) : Prop := ∀ k, fault env k = false.

(** Σ(price_i * quantity_i), the line totals added up in the order of the
    items, as the specification writes the subtotal. *)
Definition sigma_items (l : list Item) : num :=
  fold_left num_add (map line_total l) num_zero.

(** The tables after the stock of every line item has been decremented. *)
Definition decrement_all (l : list Item) (d : Database) : Database :=
  fold_left (λ d it, decrement_product (quantity it) (productId it) d) l d.


(** The values createOrder hands to Order.create. *)
Definition order_attrs (user : User) (b : CreateOrderBody) (l : list Item)
    (address : Address) : OrderAttrs :=
  let subtotal := sum_items num_zero l in
  let tax := num_mul subtotal num_tenth in
  {| a_orderNumber := None;
     a_userId := user_id user;
     a_items := l;
     a_subtotal := subtotal;
     a_tax := Some tax;
     a_shipping := Some num_ten;
     a_discount := None;
     a_totalAmount := num_add (num_add subtotal tax) num_ten;
     a_shippingAddress := address;
     a_billingAddress := Some (default address (b_billingAddress b));
     a_notes := b_notes b |}.

(** The row a createOrder request inserts when nothing fails. *)
Definition new_order (env : Env) (user : User) (b : CreateOrderBody)
    (l : list Item) (address : Address) (d : Database) : Order :=
  build_order (next_order_id d) (beforeCreate env (order_attrs user b l address)).

(** A step of the transactional sequence of createOrder fails: opening the
    transaction (step 0), Order.create (step 1: a thrown query, a validator
    or the unique index), one of the decrements (steps 2 .. n+1) or the
    commit (step n+2). *)
Definition sequence_fails (env : Env) (o : Order) (l : list Item) (d : Database) : Prop :=
  (∃ k, (k ≤ length l + 2)%nat ∧ fault env k = true)
  ∨ validate_order o = false
  ∨ order_number_taken (orderNumber o) d = true.

(** The worlds the system can be in: no orders at first; then requests, and
    changes made outside this scope (the catalogue, the provider's side of
    a payment). *)
Inductive reachable : World → Prop :=
  | reach_init ps st :
      reachable {| db := {| orders := []; products := ps; next_order_id := 1 |};
                   stripe := st |}
  | reach_serve env r w :
      reachable w → reachable (serve env r w).1
  | reach_external w ps st :
      reachable w →
      reachable {| db := {| orders := orders (db w); products := ps;
                            next_order_id := next_order_id (db w) |};
                   stripe := st |}.

(** The edges of paymentStatus as the specification draws them. *)
Definition spec_payment_edge (a b : PaymentStatus) : Prop :=
  (a = pay_pending ∧ b = paid) ∨ (a = pay_pending ∧ b = failed)
  ∨ (a = paid ∧ b = refunded).

(** Every request leaves the paymentStatus of every order where it was or
    moves it along an edge. *)
Definition payment_status_follows (edge : PaymentStatus → PaymentStatus → Prop) : Prop :=
  ∀ env r w i o o',
    reachable w →
    find_order i (orders (db w)) = Some o →
    find_order i (orders (db (serve env r w).1)) = Some o' →
    paymentStatus o' = paymentStatus o ∨ edge (paymentStatus o) (paymentStatus o').

(** Which request may hand which paymentStatus to order.update, and from
    which current value. *)
Definition update_origin (r : Request) (o : Order) (u : UpdateData) : Prop :=
  match u_paymentStatus u with
  | None => True
  | Some pay_pending => False
  | Some paid =>
      (∃ user orderId paymentIntentId,
          r = ConfirmPayment user orderId paymentIntentId)
      ∨ (∃ q, r = Webhook q ∧ event_type q = "payment_intent.succeeded")
  | Some failed =>
      ∃ q, r = Webhook q ∧ event_type q = "payment_intent.payment_failed"
  | Some refunded =>
      (∃ b, r = ProcessRefund b) ∧ paymentStatus o = paid
  end.

(** The constraints of the orders table that the store maintains: ids come
    from the sequence, the primary key and the order number are unique. *)
Definition db_wf (d : Database) : Prop :=
  (∀ o, o ∈ orders d → id o < next_order_id d)
  ∧ NoDup (id <$> orders d)
  ∧ NoDup (orderNumber <$> orders d).

(** What a request other than createOrder can do to the tables: nothing,
    or one order.update on a row that exists. *)
Definition effect (r : Request) (w w' : World) : Prop :=
  db w' = db w
  ∨ ∃ o st u, o ∈ orders (db w) ∧ update_origin r o u
      ∧ db w' = store_order (apply_update o st u) (db w).

(** The world after a createOrder request in which nothing failed. *)
Definition created (o : Order) (l : list Item) (w : World) : World :=
  {| db := decrement_all l (insert_order o (db w)); stripe := stripe w |}.

Definition response_500 : Response :=
  {| code := 500; body := Message false "Internal server error" |}.

(** The values processRefund hands to order.update. *)
Definition refund_update : UpdateData :=
  {| u_status := Some "cancelled"; u_paymentStatus := Some refunded;
     u_paymentId := None; u_trackingNumber := None; u_notes := None |}.

(** The values confirmPayment and handlePaymentSuccess hand to
    order.update. *)
Definition paid_update (pid : string) : UpdateData :=
  {| u_status := Some "processing"; u_paymentStatus := Some paid;
     u_paymentId := Some pid; u_trackingNumber := None; u_notes := None |}.

(** The webhook delivery of payment_intent.succeeded for an intent. *)
Definition succeeded_event (p : PaymentIntent) : WebhookRequest :=
  {| signature_valid := true;
     event_type := "payment_intent.succeeded";
     event_object := p |}.

End Properties.

(** *** The shape of an order number *)





(** ** An exact instance of the number interface

    Rational arithmetic, used to run the handlers on concrete requests. *)

Definition Qnum : JSNumber :=
  {| num := Q;
     num_zero := 0%Q;
     num_tenth := (1 # 10)%Q;
     num_ten := 10%Q;
     num_add := Qplus;
     num_mul := Qmult;
     num_of_int := inject_Z;
     num_min0 := λ q, Qle_bool 0 q;
     num_truthy := λ q, negb (Qeq_bool q 0);
     num_cents := λ q, Qfloor (q * 100 + (1 # 2))%Q;
     num_from_cents := λ n, (n # 100)%Q |}.

(** *** A small shop to run requests on *)

Module Example.
#[local] Existing Instance Qnum.

Definition address : Address :=
  {| street := "1 Main Street"; city := "Springfield"; state := "IL";
     zipCode := "62701"; country := "US" |}.

Definition alice : User := {| user_id := 1; role := role_user |}.
Definition bob : User := {| user_id := 2; role := role_user |}.

Definition pen : Product := {| product_name := "pen"; stock := 1 |}.

(** One product with a single unit in stock, no orders, no intents. *)
Definition w0 : World :=
  {| db := {| orders := []; products := {[ 7 := pen ]}; next_order_id := 1 |};
     stripe := {| intents := ∅; refunds := [] |} |}.

(** Nothing fails; Math.random() returned 0.5, which prints as "0.i" in
    radix 36. *)
Definition env0 : Env :=
  {| now := 1730000000000%N;
     random36 := [18%nat];
     new_intent_id := "pi_1";
     new_client_secret := "pi_1_secret";
     new_refund_id := "re_1";
     fault := λ _, false |}.

(** A later request, with a random number that prints as "0.4fzyo82mvyr". *)
Definition env1 : Env :=
  {| now := 1730000000500%N;
     random36 := [4; 15; 35; 34; 24; 8; 2; 22; 31; 34; 27]%nat;
     new_intent_id := "pi_2";
     new_client_secret := "pi_2_secret";
     new_refund_id := "re_2";
     fault := λ _, false |}.


(** The k-th I/O step of the request throws. *)
Definition failing_at (k : nat) : Env :=
  {| now := 1730000001000%N;
     random36 := [18%nat];
     new_intent_id := "pi_3";
     new_client_secret := "pi_3_secret";
     new_refund_id := "re_3";
     fault := Nat.eqb k |}.

(** Two pens at 10.00 and, from a product that does not exist, one line at
    5.00. *)
Definition items0 : list Item :=
  [ {| productId := 7; quantity := 2; price := 10%Q |};
    {| productId := 8; quantity := 1; price := 5%Q |} ].

Definition body0 : CreateOrderBody :=
  {| b_items := ItemsArray items0;
     b_shippingAddress := Some address;
     b_billingAddress := None;
     b_notes := None |}.

Definition items1 : list Item :=
  [ {| productId := 7; quantity := 1; price := 99%Q |} ].

Definition body1 : CreateOrderBody :=
  {| b_items := ItemsArray items1;
     b_shippingAddress := Some address;
     b_billingAddress := None;
     b_notes := None |}.

Definition no_items : CreateOrderBody :=
  {| b_items := ItemsArray [];
     b_shippingAddress := Some address;
     b_billingAddress := None;
     b_notes := None |}.

(** Alice places order 1, Bob places order 2, Alice asks for a payment
    intent for order 1. *)
Definition order1 : Order := new_order env0 alice body0 items0 address (db w0).
Definition w1 : World := (serve env0 (CreateOrder alice body0) w0).1.
Definition order2 : Order := new_order env1 bob body1 items1 address (db w1).
Definition w2 : World := (serve env1 (CreateOrder bob body1) w1).1.
Definition w3 : World := (serve env0 (CreatePaymentIntent alice (Some 1)) w2).1.

(** The intent of order 1 once the customer has paid it. *)
Definition intent1 : PaymentIntent :=
  {| pi_id := "pi_1";
     pi_status := succeeded;
     pi_amount := 3750;
     pi_client_secret := "pi_1_secret";
     metadata_orderId := Some "1";
     metadata_userId := Some "1" |}.

(** The provider settles the intent: a change outside this scope. *)
Definition w4 : World :=
  {| db := {| orders := orders (db w3); products := products (db w3);
              next_order_id := next_order_id (db w3) |};
     stripe := {| intents := <["pi_1" := intent1]> (intents (stripe w3));
                  refunds := refunds (stripe w3) |} |}.

(** Alice confirms the payment of order 1, an admin refunds it. *)
Definition w5 : World :=
  (serve env0 (ConfirmPayment alice (Some 1) (Some "pi_1")) w4).1.

Definition refund1 : RefundBody :=
  {| b_orderId := Some 1; b_reason := Some "damaged"; b_amount := None |}.

Definition w6 : World := (serve env0 (ProcessRefund refund1) w5).1.

End Example.

(** ** More of the Order model and vocabulary *)

Section Lifecycle.
Context `{JSNumber}.

(** Order.prototype.canBeCancelled:
    ['pending', 'processing'].includes(this.status) *)
Definition canBeCancelled (o : Order) : bool :=
  match status o with
  | pending | processing => true
  | _ => false
  end.




(** The webhook delivery of payment_intent.payment_failed for an intent. *)
Definition failed_event (p : PaymentIntent) : WebhookRequest :=
  {| signature_valid := true;
     event_type := "payment_intent.payment_failed";
     event_object := p |}.

(** The values handlePaymentFailure hands to order.update. *)
Definition failed_update (pid : string) : UpdateData :=
  {| u_status := None; u_paymentStatus := Some failed;
     u_paymentId := Some pid; u_trackingNumber := None; u_notes := None |}.

(** The values updateOrder hands to order.update. *)
Definition update_data (b : UpdateOrderBody) : UpdateData :=
  {| u_status :=
       if opt_truthy str_truthy (b_status b) then b_status b else None;
     u_paymentStatus := None;
     u_paymentId := None;
     u_trackingNumber :=
       if opt_truthy str_truthy (b_trackingNumber b)
       then b_trackingNumber b else None;
     u_notes :=
       if opt_truthy str_truthy (b_update_notes b)
       then b_update_notes b else None |}.

(** The access rule of updateOrder: a plain user only on an own order. *)
Definition may_update (user : User) (o : Order) : bool :=
  negb (bool_decide (role user = role_user) && negb (userId o =? user_id user)).

(** The intent createPaymentIntent asks the provider to create. *)
Definition intent_for (env : Env) (user : User) (o : Order) : PaymentIntent :=
  {| pi_id := new_intent_id env;
     pi_status := requires_payment_method;
     pi_amount := num_cents (totalAmount o);
     pi_client_secret := new_client_secret env;
     metadata_orderId := Some (int_string (id o));
     metadata_userId := Some (int_string (user_id user)) |}.

(** The refund processRefund asks the provider to create. *)
Definition refund_for (env : Env) (b : RefundBody) (o : Order) : Refund :=
  {| refund_id := new_refund_id env;
     refund_payment_intent := default "" (paymentId o);
     refund_amount :=
       match b_amount b with
       | Some amount =>
           if num_truthy amount then num_cents amount
           else num_cents (totalAmount o)
       | None => num_cents (totalAmount o)
       end;
     refund_status := "succeeded" |}.

(** The columns no handler of the order and payment controllers writes. *)
Definition same_fixed_columns (o o' : Order) : Prop :=
  id o' = id o ∧ orderNumber o' = orderNumber o ∧ userId o' = userId o
  ∧ items o' = items o ∧ subtotal o' = subtotal o ∧ tax o' = tax o
  ∧ shipping o' = shipping o ∧ discount o' = discount o
  ∧ totalAmount o' = totalAmount o
  ∧ shippingAddress o' = shippingAddress o
  ∧ billingAddress o' = billingAddress o
  ∧ paymentMethod o' = paymentMethod o.

(** What holds of a row since createOrder computed it. *)
Definition order_sound (o : Order) : Prop :=
  0 < id o
  ∧ orderNumber o ≠ ""
  ∧ items o ≠ []
  ∧ subtotal o = sigma_items (items o)
  ∧ tax o = num_mul (subtotal o) num_tenth
  ∧ shipping o = num_ten
  ∧ discount o = num_zero
  ∧ totalAmount o = num_add (num_add (subtotal o) (tax o)) (shipping o)
  ∧ validate_order o = true
  ∧ is_Some (billingAddress o)
  ∧ paymentMethod o = None.

(** Which values an order.update of a request other than createOrder
    carries for the payment columns. *)
Definition payment_columns_update (o : Order) (u : UpdateData) : Prop :=
  match u_paymentStatus u with
  | None => u_paymentId u = None
  | Some pay_pending => False
  | Some refunded => u_paymentId u = None ∧ paymentStatus o = paid
  | Some _ => is_Some (u_paymentId u)
  end.

(** What stays true of a row of a reachable world. *)
Definition row_inv (o : Order) : Prop :=
  order_sound o ∧ (paymentStatus o = pay_pending ↔ paymentId o = None).

End Lifecycle.

(** ** Accounts, authentication and the routes *)

(** Modelled from the spec: the columns of the users table that this scope
    reads or writes (name, email, role, isActive); the User model is not
    among the sources. *)
Record Account := {
  account_name : string;
  account_email : string;
  account_role : Role;
  isActive : bool
}.

(** The ENUM column of role, with the labels the middleware compares
    with. *)
Definition parse_role (s : string) : option Role :=
  if String.eqb s "user" then Some role_user
  else if String.eqb s "admin" then Some role_admin
  else if String.eqb s "super_admin" then Some role_super_admin
  else None.

(** String.prototype.split(separator), for a one-character separator. *)
Fixpoint split_on (sep : ascii) (s : string) : list string :=
  match s with
  | EmptyString => [EmptyString]
  | String c r =>
      if Ascii.eqb c sep then EmptyString :: split_on sep r
      else match split_on sep r with
           | h :: t => String c h :: t
           | [] => [String c EmptyString]
           end
  end.

(** req.user as the handlers read it: the id and the role of the row. *)
Definition as_user (i : Z) (a : Account) : User :=
  {| user_id := i; role := account_role a |}.

Section Site.
Context `{JSNumber}.

(** The order and payment state together with the users table. *)
Record Site := { site_world : World; accounts : gmap Z Account }.

Record SiteLocal := { order_local : Local; local_accounts : gmap Z Account }.

Definition MS (A : Type) : Type := Env → SiteLocal → SiteLocal * Outcome A.

Definition site_ret {A} (a : A) : MS A := λ _ s, (s, Ok a).

Definition site_bind {A B} (m : MS A) (k : A → MS B) : MS B :=
  λ env s, match m env s with
           | (s', Ok a) => k a env s'
           | (s', Throw e) => (s', Throw e)
           end.

Definition site_throw {A} (e : Exn) : MS A := λ _ s, (s, Throw e).

Definition site_try_catch {A} (body : MS A) (handler : Exn → MS A) : MS A :=
  λ env s, match body env s with
           | (s', Throw e) => handler e env s'
           | r => r
           end.

(** A handler of the order or payment controller, run as it is. *)
Definition lift {A} (m : M A) : MS A :=
  λ env s,
    let (l, r) := m env (order_local s) in
    ({| order_local := l; local_accounts := local_accounts s |}, r).

(** One I/O step on the users table; it shares the step counter of the
    request. *)
Definition site_io {A} (e : Exn) (m : MS A) : MS A :=
  λ env s,
    let l := order_local s in
    let s' := {| order_local := {| world := world l; txn := txn l;
                                   tick := S (tick l) |};
                 local_accounts := local_accounts s |} in
    if fault env (tick l) then (s', Throw e) else m env s'.

End Site.

Declare Scope site_scope.
Delimit Scope site_scope with site.
Notation "'await' x ':=' m 'in' k" := (site_bind m (λ x, k))
  (at level 10, x name, m at level 100, k at level 200,
   format "'[v' 'await'  x  :=  m  'in'  '/' k ']'") : site_scope.

Section Routes.
Context `{JSNumber}.

(** jwt.verify(token, process.env.JWT_SECRET): the id the token carries, or
    nothing when the verification throws.  Signing and the token format
    belong to the jsonwebtoken library. *)
Variable jwt_verify : string → option Z.

(** Whether the users table accepts a new version of the row of an id:
    the validators and unique indexes of the User model, which is not among
    the sources. *)
Variable users_accept : gmap Z Account → Z → Account → bool.

Open Scope site_scope.

Inductive SiteBody :=
  | OrderApi (b : Body)
  | UserData (data : option (Z * Account)).

Record SiteResponse := { site_code : nat; site_body : SiteBody }.

Definition site_respond (c : nat) (b : SiteBody) : MS SiteResponse :=
  site_ret {| site_code := c; site_body := b |}.

Definition api (r : Response) : SiteResponse :=
  {| site_code := code r; site_body := OrderApi (body r) |}.

Definition message (c : nat) (success : bool) (text : string) : SiteResponse :=
  {| site_code := c; site_body := OrderApi (Message success text) |}.

(** User.findByPk(id) *)
Definition User_findByPk (i : Z) : MS (option Account) :=
  site_io DatabaseError (λ _ s, (s, Ok (local_accounts s !! i))).

(** *** The middleware *)

(** protect: either a response, or next() with req.user set. *)
Definition protect (authorization : option string) : MS (SiteResponse + User) :=
  match authorization with
  | Some header =>
      if str_truthy header && String.prefix "Bearer" header then
        site_try_catch
          (let token := split_on " " header !! 1%nat in
           match token with
           | Some t =>
               if str_truthy t then
                 match jwt_verify t with
                 | Some decoded =>
                     await user := User_findByPk decoded in
                     match user with
                     | None => site_ret (inl (message 401 false "User not found"))
                     | Some a => site_ret (inr (as_user decoded a))
                     end
                 | None => site_throw SignatureVerificationError
                 end
               else site_throw SignatureVerificationError
           | None => site_throw SignatureVerificationError
           end)
          (λ _, site_ret (inl (message 401 false "Not authorized, token failed")))
      else site_ret (inl (message 401 false "Not authorized, no token"))
  | None => site_ret (inl (message 401 false "Not authorized, no token"))
  end.

(** admin: req.user && req.user.role === 'admin' *)
Definition admin (user : option User) : option SiteResponse :=
  match user with
  | Some u =>
      if bool_decide (role u = role_admin) then None
      else Some (message 403 false "Not authorized as admin")
  | None => Some (message 403 false "Not authorized as admin")
  end.

(** superAdmin: req.user && req.user.role === 'super_admin' *)
Definition superAdmin (user : option User) : option SiteResponse :=
  match user with
  | Some u =>
      if bool_decide (role u = role_super_admin) then None
      else Some (message 403 false "Not authorized as super admin")
  | None => Some (message 403 false "Not authorized as super admin")
  end.

(** adminOrSuperAdmin *)
Definition adminOrSuperAdmin (user : option User) : option SiteResponse :=
  match user with
  | Some u =>
      if bool_decide (role u = role_admin)
         || bool_decide (role u = role_super_admin)
      then None
      else Some (message 403 false "Not authorized as admin or super admin")
  | None => Some (message 403 false "Not authorized as admin or super admin")
  end.

(** *** The admin controller: accounts *)

Record UpdateUserBody := {
  b_name : option string;
  b_email : option string;
  b_role : option string;
  b_isActive : option bool     (* present only when typeof isActive === 'boolean' *)
}.

(** The row after user.update(updateData), given the role the label
    stands for. *)
Definition apply_user_update (a : Account) (b : UpdateUserBody)
    (new_role : option Role) : Account :=
  {| account_name :=
       if opt_truthy str_truthy (b_name b) then default "" (b_name b)
       else account_name a;
     account_email :=
       if opt_truthy str_truthy (b_email b) then default "" (b_email b)
       else account_email a;
     account_role := default (account_role a) new_role;
     isActive := default (isActive a) (b_isActive b) |}.

(** user.update(updateData): a role outside the ENUM is refused, and so is
    a row the table does not accept. *)
Definition user_update (i : Z) (a : Account) (b : UpdateUserBody) : MS Account :=
  site_io DatabaseError (λ _ s,
    let write (new_role : option Role) :=
      let a' := apply_user_update a b new_role in
      if users_accept (local_accounts s) i a' then
        ({| order_local := order_local s;
            local_accounts := <[i := a']> (local_accounts s) |}, Ok a')
      else (s, Throw ValidationError) in
    if opt_truthy str_truthy (b_role b) then
      match parse_role (default "" (b_role b)) with
      | Some new_role => write (Some new_role)
      | None => (s, Throw DatabaseError)
      end
    else write None).

Definition updateUser (user : User) (i : Z) (b : UpdateUserBody) : MS SiteResponse :=
  site_try_catch
    (await target := User_findByPk i in
     match target with
     | None => site_ret (message 404 false "User not found")
     | Some a =>
         if bool_decide (account_role a = role_super_admin)
            && negb (bool_decide (role user = role_super_admin))
         then site_ret (message 403 false "Cannot modify super admin user")
         else
           await _ := user_update i a b in
           await updatedUser := User_findByPk i in
           site_respond 200 (UserData ((λ a', (i, a')) <$> updatedUser))
     end)
    (λ _, site_ret (message 500 false "Internal server error")).

(** user.destroy(): the row goes, and with it the orders of the user
    (User.hasMany(Order, { foreignKey: 'userId', onDelete: 'CASCADE' })). *)
Definition user_destroy (i : Z) : MS unit :=
  site_io DatabaseError (λ _ s,
    let l := order_local s in
    let d := db (world l) in
    ({| order_local :=
          {| world := {| db := {| orders := filter (λ o, userId o ≠ i) (orders d);
                                  products := products d;
                                  next_order_id := next_order_id d |};
                         stripe := stripe (world l) |};
             txn := txn l; tick := tick l |};
        local_accounts := delete i (local_accounts s) |}, Ok tt)).

Definition deleteUser (i : Z) : MS SiteResponse :=
  site_try_catch
    (await target := User_findByPk i in
     match target with
     | None => site_ret (message 404 false "User not found")
     | Some a =>
         if bool_decide (account_role a = role_super_admin)
         then site_ret (message 403 false "Cannot delete super admin user")
         else
           await _ := user_destroy i in
           site_ret (message 200 true "User deleted successfully")
     end)
    (λ _, site_ret (message 500 false "Internal server error")).

(** *** The routes *)

(** The routes of routes/orders.js, of the payments router and of
    routes/admin.js whose handlers are modelled. *)
Inductive Endpoint :=
  | POST_orders (b : CreateOrderBody)
  | GET_orders_id (i : Z)
  | PUT_orders_id (i : Z) (b : UpdateOrderBody)
  | POST_payments_webhook (q : WebhookRequest)
  | POST_payments_create_payment_intent (orderId : option Z)
  | POST_payments_confirm_payment (orderId : option Z)
                                  (paymentIntentId : option string)
  | POST_payments_refund (b : RefundBody)
  | PUT_admin_users_id (i : Z) (b : UpdateUserBody)
  | DELETE_admin_users_id (i : Z).

(** router.verb(path, protect, handler) *)
Definition protected (authorization : option string)
    (handler : User → MS SiteResponse) : MS SiteResponse :=
  await checked := protect authorization in
  match checked with
  | inl rejected => site_ret rejected
  | inr user => handler user
  end.

(** router.verb(path, protect, gate, handler) *)
Definition gated (authorization : option string)
    (gate : option User → option SiteResponse)
    (handler : User → MS SiteResponse) : MS SiteResponse :=
  protected authorization (λ user,
    match gate (Some user) with
    | Some rejected => site_ret rejected
    | None => handler user
    end).

Definition controller (m : M Response) : MS SiteResponse :=
  await r := lift m in site_ret (api r).

Definition route (authorization : option string) (e : Endpoint) : MS SiteResponse :=
  match e with
  | POST_orders b =>
      protected authorization (λ user, controller (createOrder user b))
  | GET_orders_id i =>
      protected authorization (λ user, controller (getOrderById user i))
  | PUT_orders_id i b =>
      protected authorization (λ user, controller (updateOrder user i b))
  | POST_payments_webhook q => controller (handleWebhook q)
  | POST_payments_create_payment_intent orderId =>
      protected authorization (λ user,
        controller (createPaymentIntent user orderId))
  | POST_payments_confirm_payment orderId paymentIntentId =>
      protected authorization (λ user,
        controller (confirmPayment user orderId paymentIntentId))
  | POST_payments_refund b =>
      gated authorization adminOrSuperAdmin (λ _, controller (processRefund b))
  | PUT_admin_users_id i b =>
      gated authorization adminOrSuperAdmin (λ user, updateUser user i b)
  | DELETE_admin_users_id i =>
      gated authorization superAdmin (λ _, deleteUser i)
  end.

(** A handler run against the site, as run does against the world. *)
Definition site_run (h : MS SiteResponse) (env : Env) (s : Site)
    : Site * option SiteResponse :=
  match h env {| order_local := {| world := site_world s; txn := TxNone; tick := 0 |};
                 local_accounts := accounts s |} with
  | (s', Ok r) =>
      ({| site_world := world (order_local s'); accounts := local_accounts s' |},
       Some r)
  | (s', Throw _) =>
      ({| site_world := world (order_local s'); accounts := local_accounts s' |},
       None)
  end.

(** One HTTP request against the site. *)
Definition site_serve (env : Env) (authorization : option string) (e : Endpoint)
    (s : Site) : Site * option SiteResponse :=
  site_run (route authorization e) env s.

Definition is_webhook (e : Endpoint) : bool :=
  match e with POST_payments_webhook _ => true | _ => false end.

(** Only the step counter of the request moved. *)
Definition same_site (s s' : SiteLocal) : Prop :=
  world (order_local s') = world (order_local s)
  ∧ txn (order_local s') = txn (order_local s)
  ∧ local_accounts s' = local_accounts s.

(** The user protect lets through, when its lookup is answered. *)
Definition authenticated (authorization : option string)
    (users : gmap Z Account) : option User :=
  match authorization with
  | Some header =>
      if str_truthy header && String.prefix "Bearer" header then
        match split_on " " header !! 1%nat with
        | Some t =>
            if str_truthy t then
              match jwt_verify t with
              | Some i => as_user i <$> users !! i
              | None => None
              end
            else None
        | None => None
        end
      else None
  | None => None
  end.

End Routes.

(** *** Staff and customers of the example shop *)

Module Staff.
#[local] Existing Instance Qnum.

(** The tokens in circulation and the ids they carry. *)
Definition jwt_verify (t : string) : option Z :=
  if String.eqb t "token-alice" then Some 1
  else if String.eqb t "token-bob" then Some 2
  else if String.eqb t "token-carol" then Some 3
  else if String.eqb t "token-dave" then Some 4
  else if String.eqb t "token-root" then Some 9
  else None.

Definition users_accept (_ : gmap Z Account) (_ : Z) (_ : Account) : bool := true.

Definition customer (name email : string) : Account :=
  {| account_name := name; account_email := email;
     account_role := role_user; isActive := true |}.

Definition carol : Account :=
  {| account_name := "Carol"; account_email := "carol@example.com";
     account_role := role_admin; isActive := true |}.

(** A customer whose account has been deactivated. *)
Definition dave : Account :=
  {| account_name := "Dave"; account_email := "dave@example.com";
     account_role := role_user; isActive := false |}.

Definition root : Account :=
  {| account_name := "Root"; account_email := "root@example.com";
     account_role := role_super_admin; isActive := true |}.

(** Order 1 of Alice is paid, order 2 of Bob is pending. *)
Definition site0 : Site :=
  {| site_world := Example.w5;
     accounts := {[ 1 := customer "Alice" "alice@example.com";
                    2 := customer "Bob" "bob@example.com";
                    3 := carol; 4 := dave; 9 := root ]} |}.

Definition promote : UpdateUserBody :=
  {| b_name := None; b_email := None; b_role := Some "super_admin";
     b_isActive := None |}.

(** Order 1 once it has been delivered. *)
Definition mark_delivered : UpdateOrderBody :=
  {| b_status := Some "delivered"; b_trackingNumber := Some "TRACK-1";
     b_update_notes := None |}.

Definition w_delivered : World :=
  (serve Example.env0 (UpdateOrder Example.alice 1 mark_delivered) Example.w2).1.

Definition order1_delivered : Order :=
  apply_update Example.order1 (Some delivered) (update_data mark_delivered).


Definition no_address : CreateOrderBody :=
  {| b_items := ItemsArray Example.items0;
     b_shippingAddress := None;
     b_billingAddress := None;
     b_notes := None |}.

End Staff.

(** *** A controller behind protect *)

Section Behind.
Context `{JSNumber}.

(** The environment as a handler behind protect meets it: the lookup of
    the account was step 0 of the request. *)
Definition after_protect (env : Env) : Env :=
  {| now := now env;
     random36 := random36 env;
     new_intent_id := new_intent_id env;
     new_client_secret := new_client_secret env;
     new_refund_id := new_refund_id env;
     fault := λ k, fault env (S k) |}.

Definition later (s : Local) : Local :=
  {| world := world s; txn := txn s; tick := S (tick s) |}.

(** A computation that started one step later does what it does in the
    environment moved by one step. *)
Definition shifts {A} (m : M A) : Prop :=
  ∀ env w t k,
    m env {| world := w; txn := t; tick := S k |}
    = (later (m (after_protect env) {| world := w; txn := t; tick := k |}).1,
       (m (after_protect env) {| world := w; txn := t; tick := k |}).2).

(** The request of the order and payment controllers a protected route
    hands to its controller. *)
Definition controller_request (user : User) (e : Endpoint) : option Request :=
  match e with
  | POST_orders b => Some (CreateOrder user b)
  | GET_orders_id i => Some (GetOrderById user i)
  | PUT_orders_id i b => Some (UpdateOrder user i b)
  | POST_payments_create_payment_intent orderId =>
      Some (CreatePaymentIntent user orderId)
  | POST_payments_confirm_payment orderId paymentIntentId =>
      Some (ConfirmPayment user orderId paymentIntentId)
  | POST_payments_refund b => Some (ProcessRefund b)
  | POST_payments_webhook _ | PUT_admin_users_id _ _ | DELETE_admin_users_id _ =>
      None
  end.

(** What the client and the stores see of a request of the order and
    payment controllers that went through a route. *)
Definition through_route (accounts0 : gmap Z Account)
    (res : World * option Response) : Site * option SiteResponse :=
  ({| site_world := res.1; accounts := accounts0 |}, api <$> res.2).

End Behind.

(** * Proofs *)

(** ** Running a handler symbolically *)

Ltac unfold_handlers :=
  unfold serve, run, handler, getOrderById, updateOrder, createPaymentIntent,
    confirmPayment, handleWebhook, handlePaymentSuccess, handlePaymentFailure,
    processRefund, stripe_webhooks_constructEvent, Order_findByPk_text,
    Order_findByPk, Order_findOne, order_update, stripe_paymentIntents_create,
    stripe_paymentIntents_retrieve, stripe_refunds_create,
    try_catch, bind, respond, ret, throw, io, with_db, with_stripe, with_txn.

Ltac branch :=
  match goal with
  | |- context [fault ?e ?k] => destruct (fault e k) eqn:?
  | |- context [match ?x with _ => _ end] =>
      match type of x with
      | option _ => destruct x eqn:?
      | bool => destruct x eqn:?
      end
  end.

Ltac execute := unfold_handlers; cbn; repeat (branch; cbn).

Section Proofs.
Context `{JSNumber}.

(** ** Queries and updates on the rows of orders *)

Lemma find_order_Some i rows o :
  find_order i rows = Some o → id o = i ∧ o ∈ rows.
Proof.
  unfold find_order. intros Hf. apply find_some in Hf as [Hin Heq].
  split; [lia | by apply list_elem_of_In].
Qed.

Lemma find_user_order_Some i uid rows o :
  find_user_order i uid rows = Some o → id o = i ∧ userId o = uid ∧ o ∈ rows.
Proof.
  unfold find_user_order. intros Hf. apply find_some in Hf as [Hin Heq].
  repeat split; [lia | lia | by apply list_elem_of_In].
Qed.

Lemma find_order_elem i rows o :
  o ∈ rows → id o = i → is_Some (find_order i rows).
Proof.
  unfold find_order. intros Hin Hid.
  destruct (List.find _ rows) eqn:E; [eauto|].
  apply list_elem_of_In in Hin.
  pose proof (find_none _ _ E _ Hin) as Hn. cbn in Hn. lia.
Qed.

Lemma find_order_update i rows o' :
  is_Some (find_order i rows) → id o' = i →
  find_order i (update_rows o' rows) = Some o'.
Proof.
  unfold find_order, update_rows. intros [o Hf] Hid.
  induction rows as [|r rows IH]; [done|].
  cbn in *. destruct (id r =? i) eqn:E.
  - assert ((id r =? id o') = true) as -> by lia. cbn.
    by assert ((id o' =? i) = true) as -> by lia.
  - assert ((id r =? id o') = false) as -> by lia. cbn. rewrite E. auto.
Qed.

Lemma find_order_update_ne i rows o' :
  id o' ≠ i → find_order i (update_rows o' rows) = find_order i rows.
Proof.
  unfold find_order, update_rows. intros Hne.
  induction rows as [|r rows IH]; [done|].
  cbn. destruct (id r =? id o') eqn:E; cbn.
  - assert ((id o' =? i) = false) as -> by lia.
    by assert ((id r =? i) = false) as -> by lia.
  - by destruct (id r =? i).
Qed.

Lemma find_order_app i rows o x :
  find_order i rows = Some o → find_order i (rows ++ [x]) = Some o.
Proof.
  unfold find_order. induction rows as [|r rows IH]; [done|].
  cbn. destruct (id r =? i); auto.
Qed.

Lemma find_order_app_None i rows x o' :
  find_order i rows = None → find_order i (rows ++ [x]) = Some o' → o' = x.
Proof.
  unfold find_order. induction rows as [|r rows IH]; cbn.
  - destruct (id x =? i); congruence.
  - destruct (id r =? i); [congruence|auto].
Qed.

(** What a successful query tells about the row it returned. *)
Ltac found :=
  repeat match goal with
  | Hf : find_order _ _ = Some _ |- _ => apply find_order_Some in Hf as [? ?]
  | Hf : find_user_order _ _ _ = Some _ |- _ =>
      apply find_user_order_Some in Hf as (? & ? & ?)
  end.

(** Boolean tests met on the path, as propositions. *)
Ltac reflect :=
  repeat match goal with
  | Hb : String.eqb _ _ = true |- _ => apply String.eqb_eq in Hb
  | Hb : negb _ = false |- _ => apply negb_false_iff in Hb
  | Hb : negb _ = true |- _ => apply negb_true_iff in Hb
  | Hb : bool_decide _ = true |- _ => apply bool_decide_eq_true in Hb
  | Hb : bool_decide _ = false |- _ => apply bool_decide_eq_false in Hb
  | Hb : _ || _ = false |- _ => apply orb_false_iff in Hb as [? ?]
  | Hb : _ && _ = true |- _ => apply andb_true_iff in Hb as [? ?]
  end.

(** ** Requests other than createOrder *)

Lemma serve_effect env r w :
  (∀ u b, r ≠ CreateOrder u b) → effect r w (serve env r w).1.
Proof.
  intros Hr. destruct r as [u b|u i|u i b|u i|u i p|q|b]; [by destruct (Hr u b)|..].
  all: execute; try by left.
  all: right; found; eexists _, _, _; (split; [eassumption|split; [|reflexivity]]).
  all: cbn; reflect; eauto 6.
Qed.

(** ** createOrder *)

(** The loop of the handler computes the sum of the specification. *)
Lemma sum_items_fold acc l :
  sum_items acc l = fold_left num_add (map line_total l) acc.
Proof. revert acc. induction l as [|it l IH]; intros acc; cbn; [done|apply IH]. Qed.

Lemma orders_decrement_all l d : orders (decrement_all l d) = orders d.
Proof.
  unfold decrement_all. revert d. induction l as [|it l IH]; intros d; cbn; [done|].
  by rewrite IH.
Qed.

Lemma next_order_id_decrement_all l d :
  next_order_id (decrement_all l d) = next_order_id d.
Proof.
  unfold decrement_all. revert d. induction l as [|it l IH]; intros d; cbn; [done|].
  by rewrite IH.
Qed.

(** The decrement loop inside an open transaction: either every step went
    through and the uncommitted view has all the decrements, or some step
    threw; the committed world is untouched in both cases. *)
Lemma decrement_items_run l env s work :
  txn s = TxOpen work →
  ∃ s' r, decrement_items l env s = (s', r) ∧ world s' = world s ∧
    match r with
    | Ok _ =>
        txn s' = TxOpen (decrement_all l work)
        ∧ tick s' = (tick s + length l)%nat
        ∧ ∀ k, (tick s ≤ k < tick s + length l)%nat → fault env k = false
    | Throw _ =>
        (∃ work', txn s' = TxOpen work')
        ∧ ∃ k, (tick s ≤ k < tick s + length l)%nat ∧ fault env k = true
    end.
Proof.
  revert s work. induction l as [|it l IH]; intros s work Hs.
  - eexists _, _. split; [reflexivity|]. cbn. repeat split; [by rewrite Hs|lia|lia].
  - cbn [decrement_items]. unfold bind, Product_decrement, io.
    destruct (fault env (tick s)) eqn:Hf.
    + eexists _, _. split; [reflexivity|]. cbn. rewrite Hs.
      repeat split; eauto. exists (tick s). split; [lia|done].
    + rewrite Hs. cbn.
      edestruct (IH (with_txn (TxOpen (decrement_product (quantity it) (productId it) work))
                      {| world := world s; txn := TxOpen work; tick := S (tick s) |}))
        as (s' & r & Hrun & Hw & Hr); [reflexivity|].
      exists s', r. split; [exact Hrun|]. split; [done|].
      cbn in Hr. destruct r as [[]|e].
      * destruct Hr as (Ht & Htick & Hno). repeat split; [done|lia|].
        intros k Hk. destruct (decide (k = tick s)) as [->|]; [done|]. apply Hno. lia.
      * destruct Hr as (Hopen & k & Hk & Hfk). split; [done|]. exists k. split; [lia|done].
Qed.

(** The catch block of createOrder while the transaction is open. *)
Lemma rollback_run env s work :
  txn s = TxOpen work →
  ∃ s' r,
    bind transaction_rollback (λ _, respond 500 (Message false "Internal server error")) env s
    = (s', r)
    ∧ world s' = world s ∧ (r = Ok response_500 ∨ ∃ e, r = Throw e).
Proof.
  intros Hs. unfold bind, transaction_rollback, io, respond, ret.
  destruct (fault env (tick s)); cbn.
  - eexists _, _. split; [reflexivity|]. cbn. eauto.
  - rewrite Hs. cbn. eexists _, _. split; [reflexivity|]. cbn. auto.
Qed.

(** A createOrder request that passes validation: either a step of the
    transactional sequence failed and the world is unchanged, or none did
    and the world has the order and the decrements; the 201 is sent unless
    the read-back after the commit throws. *)
Lemma createOrder_cases env user b w l address :
  b_items b = ItemsArray l → l ≠ [] → b_shippingAddress b = Some address →
  let o := new_order env user b l address (db w) in
  ∃ w' resp, run (createOrder user b) env w = (w', resp) ∧
  ((sequence_fails env o l (db w) ∧ w' = w
    ∧ (resp = None ∨ resp = Some response_500))
   ∨ (¬ sequence_fails env o l (db w) ∧ w' = created o l w
      ∧ (resp = None
         ∨ resp = Some {| code := 201;
                          body := OrderData (find_order (id o) (orders (db w) ++ [o])) |}))).
Proof.
  intros Hitems Hne Haddr o.
  unfold run, createOrder. unfold bind at 1. unfold sequelize_transaction, io at 1.
  cbn [tick world txn].
  destruct (fault env 0) eqn:F0.
  { eexists _, _. split; [reflexivity|].
    left. split; [left; exists 0%nat; split; [lia|done]|]. auto. }
  unfold with_txn. cbn [tick world txn].
  rewrite Hitems, Haddr. destruct l as [|it0 l0]; [done|]. clear Hne.
  cbv iota beta. set (l := it0 :: l0) in *.
  unfold try_catch. unfold bind at 1. unfold Order_create, io at 1. cbn [tick world txn].
  fold (order_attrs user b l address). fold (new_order env user b l address (db w)). fold o.
  destruct (fault env 1) eqn:F1.
  { destruct (rollback_run env {| world := w; txn := TxOpen (db w); tick := 2 |}
                (db w) eq_refl) as (s' & r & -> & Hw & [->| [e ->]]).
    all: eexists _, _; (split; [reflexivity|]); left.
    all: (split; [left; exists 1%nat; split; [lia|done]|]); rewrite Hw; auto. }
  destruct (validate_order o) eqn:Hv; cbn [negb]; cycle 1.
  { destruct (rollback_run env {| world := w; txn := TxOpen (db w); tick := 2 |}
                (db w) eq_refl) as (s' & r & -> & Hw & [->| [e ->]]).
    all: eexists _, _; (split; [reflexivity|]); left.
    all: (split; [right; left; done|]); rewrite Hw; auto. }
  destruct (order_number_taken (orderNumber o) (db w)) eqn:Ht.
  { destruct (rollback_run env {| world := w; txn := TxOpen (db w); tick := 2 |}
                (db w) eq_refl) as (s' & r & -> & Hw & [->| [e ->]]).
    all: eexists _, _; (split; [reflexivity|]); left.
    all: (split; [right; right; done|]); rewrite Hw; auto. }
  unfold with_txn. cbn [tick world txn]. unfold bind at 1.
  destruct (decrement_items_run l env
              {| world := w; txn := TxOpen (insert_order o (db w)); tick := 2 |}
              _ eq_refl) as (s3 & r3 & -> & Hw3 & Hr3).
  destruct r3 as [[]|e3].
  2:{ destruct Hr3 as ([work' Hopen] & k & Hk & Hfk).
      destruct (rollback_run env s3 _ Hopen) as (s' & r & -> & Hw & [->| [e ->]]).
      all: eexists _, _; (split; [reflexivity|]); left.
      all: (split; [left; exists k; subst l; cbn in *; split; [lia|done]|]).
      all: rewrite Hw, Hw3; auto. }
  destruct Hr3 as (Ht3 & Htick3 & Hno3). cbn in Htick3, Hno3.
  unfold bind at 1. unfold transaction_commit, io at 1.
  destruct (fault env (tick s3)) eqn:Fc.
  { edestruct (rollback_run env {| world := world s3; txn := txn s3; tick := S (tick s3) |})
      as (s' & r & -> & Hw & [->| [e ->]]); [exact Ht3|..].
    all: eexists _, _; (split; [reflexivity|]); left.
    all: (split; [left; exists (tick s3); subst l; cbn in *; split; [lia|done]|]).
    all: rewrite Hw; cbn; rewrite Hw3; auto. }
  cbn [tick world txn]. rewrite Ht3. unfold with_db, with_txn. cbn [tick world txn].
  assert (¬ sequence_fails env o l (db w)) as Hok.
  { intros [(k & Hk & Hfk)|[Hv'|Ht']]; [|congruence|congruence].
    destruct (decide (k = 0%nat)) as [->|]; [congruence|].
    destruct (decide (k = 1%nat)) as [->|]; [congruence|].
    destruct (decide (k = tick s3)) as [->|]; [congruence|].
    rewrite Hno3 in Hfk; [done|]. subst l. cbn in *. lia. }
  unfold bind, Order_findByPk, io. cbn [tick world txn].
  rewrite Hw3. cbn [db stripe].
  destruct (fault env (S (tick s3))) eqn:Fr.
  - unfold transaction_rollback, io. cbn [tick world txn].
    destruct (fault env (S (S (tick s3)))).
    all: eexists _, _; (split; [reflexivity|]); right; (split; [done|]); cbn; auto.
  - eexists _, _; (split; [reflexivity|]); right; (split; [done|]).
    split; [done|]. right. rewrite orders_decrement_all. done.
Qed.

(** The two validation returns of createOrder. *)
Lemma createOrder_rejected env user b w :
  b_items b = ItemsMissing ∨ b_items b = ItemsNotArray ∨ b_items b = ItemsArray []
  ∨ b_shippingAddress b = None →
  ∃ message,
    run (createOrder user b) env w
    = (w, if fault env 0 then None
          else Some {| code := 400; body := Message false message |}).
Proof.
  intros Hb. unfold run, createOrder, sequelize_transaction, try_catch, bind, io,
    respond, ret, with_txn. cbn.
  destruct (fault env 0); [by exists ""|].
  destruct Hb as [->|[->|[->|Hb]]]; cbn; eauto.
  rewrite Hb. destruct (b_items b) as [| |[|it l]]; cbn; eauto.
Qed.

(** What a createOrder request can do to the world. *)
Lemma createOrder_effect env user b w w' resp :
  run (createOrder user b) env w = (w', resp) →
  (w' = w ∧ ∀ r, resp = Some r → code r ≠ 201%nat)
  ∨ ∃ l address,
      b_items b = ItemsArray l ∧ l ≠ [] ∧ b_shippingAddress b = Some address
      ∧ ¬ sequence_fails env (new_order env user b l address (db w)) l (db w)
      ∧ w' = created (new_order env user b l address (db w)) l w
      ∧ ∀ r, resp = Some r →
          r = {| code := 201;
                 body := OrderData
                   (find_order (next_order_id (db w))
                      (orders (db w) ++ [new_order env user b l address (db w)])) |}.
Proof.
  intros Hrun.
  assert ((b_items b = ItemsMissing ∨ b_items b = ItemsNotArray
           ∨ b_items b = ItemsArray [] ∨ b_shippingAddress b = None)
          ∨ ∃ l address, b_items b = ItemsArray l ∧ l ≠ []
              ∧ b_shippingAddress b = Some address) as Hcases.
  { destruct (b_items b) as [| |[|it l]]; auto.
    destruct (b_shippingAddress b) as [address|]; auto.
    right. by exists (it :: l), address. }
  destruct Hcases as [Hb|(l & address & Hl & Hne & Ha)].
  { destruct (createOrder_rejected env user b w Hb) as [message Hrej].
    rewrite Hrej in Hrun. left. destruct (fault env 0); simplify_eq.
    all: split; [done|]; intros r Hr; by simplify_eq. }
  destruct (createOrder_cases env user b w l address Hl Hne Ha)
    as (w1 & resp1 & Hrun1 & Hcase).
  rewrite Hrun in Hrun1. simplify_eq.
  destruct Hcase as [(Hfail & -> & Hresp)|(Hok & -> & Hresp)].
  - left. split; [done|]. intros r ->. by destruct Hresp as [|]; simplify_eq.
  - right. exists l, address. repeat split; try done.
    intros r ->. by destruct Hresp as [|]; simplify_eq.
Qed.

(** ** The constraints of the orders table are maintained *)

Lemma order_number_free n d :
  order_number_taken n d = false → n ∉ orderNumber <$> orders d.
Proof.
  unfold order_number_taken. intros Hfree Hin.
  apply list_elem_of_fmap in Hin as (o & -> & Hin).
  apply list_elem_of_In in Hin.
  assert (existsb (λ o0, (orderNumber o0 =? orderNumber o)%string) (orders d) = true);
    [|congruence].
  apply existsb_exists. exists o. split; [done|]. apply String.eqb_refl.
Qed.

Lemma db_wf_insert o d :
  db_wf d → id o = next_order_id d →
  order_number_taken (orderNumber o) d = false →
  db_wf (insert_order o d).
Proof.
  intros (Hlt & Hid & Hnum) Ho Hfree. unfold db_wf, insert_order. cbn.
  rewrite !fmap_app. cbn. split; [|split].
  - intros o' [Hin| ->%list_elem_of_singleton]%elem_of_app; [|lia].
    apply Hlt in Hin. lia.
  - apply NoDup_app. split; [done|]. split; [|apply NoDup_singleton].
    intros i Hin ->%list_elem_of_singleton.
    apply list_elem_of_fmap in Hin as (o' & Heq & Hin). apply Hlt in Hin. lia.
  - apply NoDup_app. split; [done|]. split; [|apply NoDup_singleton].
    intros n Hin ->%list_elem_of_singleton. by apply order_number_free in Hfree.
Qed.

Lemma db_wf_decrement_all l d : db_wf d → db_wf (decrement_all l d).
Proof.
  unfold db_wf. by rewrite orders_decrement_all, next_order_id_decrement_all.
Qed.

Lemma update_rows_fmap {A} (f : Order → A) o' rows :
  (∀ row, row ∈ rows → id row = id o' → f o' = f row) →
  f <$> update_rows o' rows = f <$> rows.
Proof.
  unfold update_rows. induction rows as [|r rows IH]; intros Hf; [done|].
  cbn. f_equal.
  - destruct (id r =? id o') eqn:E; [|done]. apply Hf; [left|lia].
  - apply IH. intros row Hin. apply Hf. by right.
Qed.

Lemma same_row d o row :
  db_wf d → o ∈ orders d → row ∈ orders d → id row = id o → row = o.
Proof.
  intros (_ & Hid & _) Ho Hrow Heq.
  apply list_elem_of_lookup in Ho as [i Hi]. apply list_elem_of_lookup in Hrow as [j Hj].
  assert (i = j) as ->; [|congruence].
  eapply NoDup_lookup; [exact Hid|..]; rewrite list_lookup_fmap.
  - by rewrite Hi.
  - rewrite Hj. cbn. by rewrite Heq.
Qed.

Lemma db_wf_store o st u d :
  db_wf d → o ∈ orders d → db_wf (store_order (apply_update o st u) d).
Proof.
  intros Hwf Ho. pose proof Hwf as (Hlt & Hid & Hnum).
  unfold db_wf, store_order. cbn.
  rewrite !update_rows_fmap; [|intros row Hrow Heq; cbn in *..].
  - split; [|done]. intros o' Hin. unfold update_rows in Hin.
    apply list_elem_of_fmap in Hin as (row & -> & Hrow).
    destruct (id row =? _); cbn; auto.
  - by rewrite (same_row d o row).
  - done.
Qed.

Lemma effect_wf r w w' : effect r w w' → db_wf (db w) → db_wf (db w').
Proof.
  intros [->|(o & st & u & Ho & _ & ->)] Hwf; [done|]. by apply db_wf_store.
Qed.


Lemma serve_wf env r w : db_wf (db w) → db_wf (db (serve env r w).1).
Proof.
  intros Hwf. destruct r as [u b| | | | | |].
  2-7: eapply effect_wf; [apply serve_effect; by intros|done].
  unfold serve, handler. destruct (run (createOrder u b) env w) as [w' resp] eqn:Hrun.
  apply createOrder_effect in Hrun
    as [[-> _]|(l & address & Hl & Hne & Ha & Hok & -> & _)]; [done|].
  cbn. apply db_wf_decrement_all, db_wf_insert; [done|done|].
  destruct (order_number_taken _ _) eqn:E; [|done].
  destruct Hok. right; right. done.
Qed.

Lemma reachable_wf w : reachable w → db_wf (db w).
Proof.
  induction 1 as [ps st|env r w _ IH|w ps st _ IH].
  - cbn. repeat split; cbn; [by intros o ?%elem_of_nil|apply NoDup_nil_2..].
  - by apply serve_wf.
  - done.
Qed.


(** ** Strings *)

Lemma string_length_app (a b : string) :
  String.length (a +:+ b) = (String.length a + String.length b)%nat.
Proof.
  induction a as [|c a IH]; [done|].
  change (String c a +:+ b) with (String c (a +:+ b)). cbn. by rewrite IH.
Qed.
















Lemma orders_created o l w :
  orders (db (created o l w)) = (orders (db w) ++ [o])%list.
Proof. cbn. by rewrite orders_decrement_all. Qed.

(** ** The payment_intent.succeeded webhook *)

Lemma parse_id_truthy s i : parse_id s = Some i → str_truthy s = true.
Proof. by destruct s. Qed.

Lemma webhook_success_run env w p s i o :
  no_faults env →
  metadata_orderId p = Some s → parse_id s = Some i →
  find_order i (orders (db w)) = Some o →
  serve env (Webhook (succeeded_event p)) w
  = ({| db := store_order (apply_update o (Some processing) (paid_update (pi_id p))) (db w);
        stripe := stripe w |},
     Some {| code := 200; body := Received |}).
Proof.
  intros Hnf Hm Hparse Hf. unfold_handlers. cbn.
  rewrite Hm. cbn. rewrite (parse_id_truthy s i Hparse), Hparse. cbn.
  repeat (first [rewrite Hnf | rewrite Hf]; cbn). done.
Qed.

Lemma apply_paid_update_twice o pid :
  let o' := apply_update o (Some processing) (paid_update pid) in
  apply_update o' (Some processing) (paid_update pid) = o'.
Proof. done. Qed.

Lemma update_rows_twice o rows :
  update_rows o (update_rows o rows) = update_rows o rows.
Proof.
  unfold update_rows. rewrite map_map. apply map_ext. intros r.
  destruct (id r =? id o) eqn:E; [by rewrite Z.eqb_refl|by rewrite E].
Qed.

(** * Properties of the order lifecycle *)




(** C8: a createOrder request whose items are missing, not an array or an
    empty array leaves the world as it was; the response, sent as soon as
    the transaction could be opened, is the 400 about the items, and no
    other response is ever sent. *)
Theorem createOrder_rejects_items env user b w :
  b_items b = ItemsMissing ∨ b_items b = ItemsNotArray ∨ b_items b = ItemsArray [] →
  let res := run (createOrder user b) env w in
  res.1 = w
  ∧ (fault env 0 = false →
       res.2 = Some {| code := 400;
                       body := Message false
                         "Items are required and must be a non-empty array" |})
  ∧ (∀ r, res.2 = Some r → code r = 400%nat).
Proof.
  intros Hb res. subst res.
  unfold run, createOrder, sequelize_transaction, try_catch, bind, io,
    respond, ret, with_txn. cbn.
  destruct (fault env 0); cbn.
  - repeat split; [done|]. by intros r ?.
  - destruct Hb as [->|[->| ->]]; cbn; repeat split; by intros r [= <-].
Qed.

(** C7: a refund of an order that is not paid, or that has no payment id,
    changes nothing and is answered with a 400 (whenever the order could be
    read); a refund that is accepted (200) found the order paid and leaves
    it refunded and cancelled, whatever its status was. *)
Theorem processRefund_guard env b w i o :
  b_orderId b = Some i →
  find_order i (orders (db w)) = Some o →
  let res := run (processRefund b) env w in
  (paymentStatus o ≠ paid ∨ opt_truthy str_truthy (paymentId o) = false →
     res.1 = w
     ∧ (fault env 0 = false →
          ∃ message,
            res.2 = Some {| code := 400; body := Message false message |}))
  ∧ (∀ r, res.2 = Some r → code r = 200%nat →
       paymentStatus o = paid
       ∧ ∃ o', find_order i (orders (db res.1)) = Some o'
           ∧ o' = apply_update o (Some cancelled) refund_update
           ∧ paymentStatus o' = refunded ∧ status o' = cancelled).
Proof.
  intros Hb Hf res. subst res. split.
  - intros Hguard. unfold_handlers. rewrite Hb. cbn.
    repeat (branch; cbn); simplify_eq/=; reflect; try (split; [done|]; eauto).
    all: try (intros; discriminate).
    all: exfalso; destruct Hguard as [Hg|Hg]; [done|].
    all: match goal with Hp : paymentId _ = _ |- _ => rewrite Hp in Hg end.
    all: cbn in Hg; congruence.
  - unfold_handlers. rewrite Hb. cbn.
    repeat (branch; cbn); simplify_eq/=; reflect; intros r [= <-] Hcode; try done.
    all: cbn in Hcode; try discriminate.
    all: split; [done|]; eexists; split; [|done].
    all: found; apply find_order_update; [by eapply find_order_elem|done].
Qed.

(** C10: confirmPayment marks the caller's order paid as soon as the
    provider reports the supplied intent as succeeded.  Nothing is assumed
    of the intent's metadata or amount, nor of the order's current
    paymentStatus: none of them is consulted. *)
Theorem confirmPayment_trusts_intent_status env user i pid w o p :
  i ≠ 0 → pid ≠ "" →
  find_user_order i (user_id user) (orders (db w)) = Some o →
  intents (stripe w) !! pid = Some p →
  pi_status p = succeeded →
  no_faults env →
  let o' := apply_update o (Some processing) (paid_update pid) in
  run (confirmPayment user (Some i) (Some pid)) env w
  = ({| db := store_order o' (db w); stripe := stripe w |},
     Some {| code := 200;
             body := PaymentConfirmed "Payment confirmed successfully" o' |})
  ∧ find_order i (orders (store_order o' (db w))) = Some o'
  ∧ paymentStatus o' = paid ∧ paymentId o' = Some pid ∧ status o' = processing.
Proof.
  intros Hi Hpid Hf Hp Hs Hnf o'. split.
  - unfold_handlers. cbn.
    assert (int_truthy i = true) as -> by (unfold int_truthy; destruct (Z.eqb_spec i 0); done).
    assert (str_truthy pid = true) as -> by (by destruct pid).
    destruct p as [pi st amount secret m_order m_user]. cbn in Hs. subst st.
    cbn.
    repeat (first [rewrite Hnf | rewrite Hf | rewrite Hp
                  | rewrite bool_decide_eq_true_2 by done]; cbn).
    done.
  - split; [|done]. unfold store_order. cbn [orders]. found.
    apply find_order_update; [by eapply find_order_elem|done].
Qed.

(** C6: delivering payment_intent.succeeded for an order once or twice
    leaves the same world, in which the order is paid and processing. *)
Theorem webhook_success_idempotent env1 env2 w p s i o :
  no_faults env1 → no_faults env2 →
  metadata_orderId p = Some s → parse_id s = Some i →
  find_order i (orders (db w)) = Some o →
  let once := (serve env1 (Webhook (succeeded_event p)) w).1 in
  let twice := (serve env2 (Webhook (succeeded_event p)) once).1 in
  twice = once
  ∧ ∃ o', find_order i (orders (db once)) = Some o'
      ∧ paymentStatus o' = paid ∧ status o' = processing
      ∧ paymentId o' = Some (pi_id p).
Proof.
  intros Hnf1 Hnf2 Hm Hparse Hf once twice.
  set (o' := apply_update o (Some processing) (paid_update (pi_id p))).
  assert (find_order i (orders (db once)) = Some o') as Hf'.
  { subst once. rewrite (webhook_success_run env1 w p s i o) by done.
    cbn [fst db store_order orders]. found.
    apply find_order_update; [by eapply find_order_elem|done]. }
  split; [|by exists o'].
  subst twice. rewrite (webhook_success_run env2 once p s i o') by done.
  subst once. rewrite (webhook_success_run env1 w p s i o) by done.
  cbn [fst db stripe]. fold o'. subst o'. rewrite apply_paid_update_twice.
  unfold store_order. cbn [orders products next_order_id].
  by rewrite update_rows_twice.
Qed.

(** C4: a webhook delivery whose signature verifies is always answered
    with 200 { received: true }, whatever I/O step throws while the order
    update is applied: handlePaymentSuccess and handlePaymentFailure catch
    the error themselves, so the 500 of handleWebhook is never sent. *)
Theorem handleWebhook_acknowledges_failures env q w :
  signature_valid q = true →
  (run (handleWebhook q) env w).2 = Some {| code := 200; body := Received |}.
Proof.
  intros Hsig. unfold_handlers. rewrite Hsig. cbn.
  repeat (branch; cbn); done.
Qed.

(** C3, as the code has it: an order enters the table with paymentStatus
    pending, and the paymentStatus of an order of a reachable world changes
    only in these ways: to paid by confirmPayment or by the
    payment_intent.succeeded webhook, to failed by the
    payment_intent.payment_failed webhook (both whatever the previous
    value), to refunded by processRefund and then only from paid; never
    back to pending. *)
Theorem payment_status_transitions env r w :
  reachable w →
  let w' := (serve env r w).1 in
  (∀ i o o',
     find_order i (orders (db w)) = Some o →
     find_order i (orders (db w')) = Some o' →
     paymentStatus o' ≠ paymentStatus o →
     match paymentStatus o' with
     | pay_pending => False
     | paid =>
         (∃ user orderId paymentIntentId,
             r = ConfirmPayment user orderId paymentIntentId)
         ∨ (∃ q, r = Webhook q ∧ event_type q = "payment_intent.succeeded")
     | failed =>
         ∃ q, r = Webhook q ∧ event_type q = "payment_intent.payment_failed"
     | refunded => (∃ b, r = ProcessRefund b) ∧ paymentStatus o = paid
     end)
  ∧ (∀ i o',
       find_order i (orders (db w)) = None →
       find_order i (orders (db w')) = Some o' →
       paymentStatus o' = pay_pending).
Proof.
  intros Hreach w'. apply reachable_wf in Hreach as Hwf.
  assert (effect r w w'
          ∨ ∃ x, paymentStatus x = pay_pending
                 ∧ orders (db w') = (orders (db w) ++ [x])%list) as Hcases.
  { subst w'. destruct r as [u b| | | | | |].
    2-7: left; apply serve_effect; by intros.
    unfold serve, handler.
    destruct (run (createOrder u b) env w) as [w1 resp] eqn:Hrun.
    apply createOrder_effect in Hrun
      as [[-> _]|(l & address & _ & _ & _ & _ & -> & _)]; cbn [fst].
    - left. by left.
    - right. eexists. split; [|apply orders_created]. done. }
  clearbody w'. split.
  - intros i o o' Hf Hf' Hne.
    destruct Hcases as [[Hdb|(u0 & st & u & Hin & Horigin & Hdb)]|(x & _ & Hdb)];
      rewrite Hdb in Hf'.
    + congruence.
    + unfold store_order in Hf'. cbn [orders] in Hf'.
      destruct (decide (id u0 = i)) as [Hid|Hid].
      * rewrite find_order_update in Hf'; [|by eapply find_order_elem|done].
        apply find_order_Some in Hf as [Hio Ho].
        assert (u0 = o) as -> by (eapply same_row; [done..|congruence]).
        simplify_eq. cbn in *. unfold update_origin in Horigin.
        destruct (u_paymentStatus u) as [[]|]; cbn in *; done.
      * rewrite find_order_update_ne in Hf' by done. congruence.
    + rewrite (find_order_app _ _ _ _ Hf) in Hf'. congruence.
  - intros i o' Hf Hf'.
    destruct Hcases as [[Hdb|(u0 & st & u & Hin & Horigin & Hdb)]|(x & Hx & Hdb)];
      rewrite Hdb in Hf'.
    + congruence.
    + unfold store_order in Hf'. cbn [orders] in Hf'.
      destruct (decide (id u0 = i)) as [Hid|Hid].
      * destruct (find_order_elem i _ u0 Hin Hid) as [? ?]. congruence.
      * rewrite find_order_update_ne in Hf' by done. congruence.
    + by rewrite (find_order_app_None _ _ _ _ Hf Hf').
Qed.


End Proofs.

(** * The properties on the example shop *)

(** The read-back after the commit is outside the transaction: when it
    throws (step 5 of this request), the catch block cannot roll back the
    finished transaction, no response is sent, and the order and the
    decrements stay committed. *)
Example createOrder_read_back_failure :
  run (createOrder Example.alice Example.body0) (Example.failing_at 5) Example.w0
  = (created (new_order (Example.failing_at 5) Example.alice Example.body0
                Example.items0 Example.address (db Example.w0))
       Example.items0 Example.w0,
     None).
Proof. vm_compute. reflexivity. Qed.




Lemma createOrder_rejects_items_witness :
  let res := run (createOrder Example.alice Example.no_items) Example.env0 Example.w0 in
  res.1 = Example.w0
  ∧ res.2 = Some {| code := 400;
                    body := Message false
                      "Items are required and must be a non-empty array" |}.
Proof.
  destruct (createOrder_rejects_items Example.env0 Example.alice Example.no_items
              Example.w0) as (Hw & Hr & _).
  - right; right. reflexivity.
  - split; [exact Hw|]. apply Hr. reflexivity.
Defined.

Lemma processRefund_guard_witness :
  (run (processRefund Example.refund1) Example.env0 Example.w2).1 = Example.w2
  ∧ (∃ o', find_order 1 (orders (db Example.w6)) = Some o'
        ∧ paymentStatus o' = refunded ∧ status o' = cancelled).
Proof.
  split.
  - apply (processRefund_guard Example.env0 Example.refund1 Example.w2 1
             Example.order1 eq_refl); [vm_compute; reflexivity|].
    left. discriminate.
  - destruct (processRefund_guard Example.env0 Example.refund1 Example.w5 1
                (apply_update Example.order1 (Some processing) (paid_update "pi_1"))
                eq_refl) as [_ Hok]; [vm_compute; reflexivity|].
    destruct (Hok {| code := 200;
                     body := RefundProcessed "Refund processed successfully" "re_1"
                               (num_from_cents 3750) "succeeded" |})
      as (_ & o' & Hf & _ & Hp & Hs); [vm_compute; reflexivity|reflexivity|].
    exists o'. auto.
Defined.

Lemma confirmPayment_trusts_intent_status_witness :
  metadata_orderId Example.intent1 = Some "1"
  ∧ pi_amount Example.intent1 = 3750
  ∧ num_cents (totalAmount Example.order2) = 11890
  ∧ ∃ o', find_order 2 (orders (db (run (confirmPayment Example.bob (Some 2) (Some "pi_1"))
                                      Example.env0 Example.w4).1)) = Some o'
      ∧ paymentStatus o' = paid ∧ paymentId o' = Some "pi_1" ∧ status o' = processing.
Proof.
  split; [reflexivity|]. split; [reflexivity|]. split; [vm_compute; reflexivity|].
  destruct (confirmPayment_trusts_intent_status Example.env0 Example.bob 2 "pi_1"
              Example.w4 Example.order2 Example.intent1)
    as (Hrun & Hf & Hp & Hi & Hs).
  - lia.
  - discriminate.
  - vm_compute. reflexivity.
  - vm_compute. reflexivity.
  - reflexivity.
  - intros k. reflexivity.
  - rewrite Hrun. cbn [fst db]. eauto.
Defined.

Lemma webhook_success_idempotent_witness :
  let once := (serve Example.env0 (Webhook (succeeded_event Example.intent1)) Example.w2).1 in
  let twice := (serve Example.env1 (Webhook (succeeded_event Example.intent1)) once).1 in
  twice = once
  ∧ ∃ o', find_order 1 (orders (db once)) = Some o'
      ∧ paymentStatus o' = paid ∧ status o' = processing
      ∧ paymentId o' = Some "pi_1".
Proof.
  apply (webhook_success_idempotent Example.env0 Example.env1 Example.w2
           Example.intent1 "1" 1 Example.order1).
  - intros k. reflexivity.
  - intros k. reflexivity.
  - reflexivity.
  - reflexivity.
  - vm_compute. reflexivity.
Defined.

Lemma handleWebhook_acknowledges_failures_witness :
  let res := run (handleWebhook (succeeded_event Example.intent1))
               (Example.failing_at 1) Example.w2 in
  find_order 1 (orders (db Example.w2)) = Some Example.order1
  ∧ res.2 = Some {| code := 200; body := Received |}
  ∧ res.1 = Example.w2.
Proof.
  split; [vm_compute; reflexivity|]. split.
  - apply handleWebhook_acknowledges_failures. reflexivity.
  - vm_compute. reflexivity.
Defined.

Lemma payment_status_transitions_witness :
  (∃ user orderId paymentIntentId,
     ConfirmPayment Example.alice (Some 1) (Some "pi_1")
     = ConfirmPayment (H := Qnum) user orderId paymentIntentId)
  ∨ (∃ q,
       ConfirmPayment Example.alice (Some 1) (Some "pi_1") = Webhook (H := Qnum) q
       ∧ event_type q = "payment_intent.succeeded").
Proof.
  destruct (payment_status_transitions Example.env0
              (ConfirmPayment Example.alice (Some 1) (Some "pi_1")) Example.w4)
    as [Hmove _].
  - apply (reach_external Example.w3). do 3 apply reach_serve. apply reach_init.
  - apply (Hmove 1 Example.order1
             (apply_update Example.order1 (Some processing) (paid_update "pi_1"))).
    + vm_compute. reflexivity.
    + vm_compute. reflexivity.
    + discriminate.
Defined.


(** C3, as stated, fails: order 1 has been paid and refunded; confirming
    its payment once more with the same intent moves it from refunded to
    paid. *)
Lemma refunded_order_is_paid_again :
  reachable Example.w6
  ∧ (∃ o o',
       find_order 1 (orders (db Example.w6)) = Some o
       ∧ find_order 1 (orders (db (serve Example.env0
            (ConfirmPayment Example.alice (Some 1) (Some "pi_1")) Example.w6).1))
         = Some o'
       ∧ paymentStatus o = refunded ∧ paymentStatus o' = paid)
  ∧ ¬ payment_status_follows (H := Qnum) spec_payment_edge.
Proof.
  assert (reachable Example.w6) as Hreach.
  { do 2 apply reach_serve. apply (reach_external Example.w3).
    do 3 apply reach_serve. apply reach_init. }
  assert (∃ o o',
       find_order 1 (orders (db Example.w6)) = Some o
       ∧ find_order 1 (orders (db (serve Example.env0
            (ConfirmPayment Example.alice (Some 1) (Some "pi_1")) Example.w6).1))
         = Some o'
       ∧ paymentStatus o = refunded ∧ paymentStatus o' = paid) as Hmove.
  { eexists _, _. split; [vm_compute; reflexivity|].
    split; [vm_compute; reflexivity|]. split; reflexivity. }
  split; [done|]. split; [done|].
  intros Hclaim. destruct Hmove as (o & o' & Hf & Hf' & Ho & Ho').
  destruct (Hclaim _ _ _ _ _ _ Hreach Hf Hf') as [Heq|[[Ha _]|[[Ha _]|[Ha _]]]];
    congruence.
Qed.


(** * Further properties of the order and payment controllers *)

Ltac rows_found :=
  repeat match goal with
  | Hf : find_order _ _ = Some _ |- _ => apply find_order_Some in Hf as [? ?]
  | Hf : find_user_order _ _ _ = Some _ |- _ =>
      apply find_user_order_Some in Hf as (? & ? & ?)
  end.

Ltac as_props :=
  repeat match goal with
  | Hb : String.eqb _ _ = true |- _ => apply String.eqb_eq in Hb
  | Hb : String.eqb _ _ = false |- _ => apply String.eqb_neq in Hb
  | Hb : negb _ = false |- _ => apply negb_false_iff in Hb
  | Hb : negb _ = true |- _ => apply negb_true_iff in Hb
  | Hb : bool_decide _ = true |- _ => apply bool_decide_eq_true in Hb
  | Hb : bool_decide _ = false |- _ => apply bool_decide_eq_false in Hb
  | Hb : _ || _ = false |- _ => apply orb_false_iff in Hb as [? ?]
  | Hb : _ && _ = true |- _ => apply andb_true_iff in Hb as [? ?]
  end.

Section More.
Context `{JSNumber}.




Lemma webhook_failure_run env w p s i o :
  no_faults env →
  metadata_orderId p = Some s → parse_id s = Some i →
  find_order i (orders (db w)) = Some o →
  serve env (Webhook (failed_event p)) w
  = ({| db := store_order (apply_update o None (failed_update (pi_id p))) (db w);
        stripe := stripe w |},
     Some {| code := 200; body := Received |}).
Proof.
  intros Hnf Hm Hparse Hf. unfold_handlers. cbn.
  rewrite Hm. cbn. rewrite (parse_id_truthy s i Hparse), Hparse. cbn.
  repeat (first [rewrite Hnf | rewrite Hf]; cbn). done.
Qed.

(** X3: a payment_intent.payment_failed delivery sets paymentStatus to
    failed and paymentId to the id of the intent on the order its metadata
    names; the status, the tracking number, the notes and every other column
    of the order, the products and the provider's records stay as they were,
    and a second delivery of the event changes nothing more. *)
Theorem webhook_failure_effect env1 env2 w p s i o :
  no_faults env1 → no_faults env2 →
  metadata_orderId p = Some s → parse_id s = Some i →
  find_order i (orders (db w)) = Some o →
  let once := (serve env1 (Webhook (failed_event p)) w).1 in
  let twice := (serve env2 (Webhook (failed_event p)) once).1 in
  twice = once
  ∧ products (db once) = products (db w) ∧ stripe once = stripe w
  ∧ ∃ o', find_order i (orders (db once)) = Some o'
      ∧ paymentStatus o' = failed ∧ paymentId o' = Some (pi_id p)
      ∧ status o' = status o ∧ trackingNumber o' = trackingNumber o
      ∧ notes o' = notes o ∧ same_fixed_columns o o'.
Proof.
  intros Hnf1 Hnf2 Hm Hparse Hf once twice.
  set (o' := apply_update o None (failed_update (pi_id p))).
  assert (once = {| db := store_order o' (db w); stripe := stripe w |}) as Honce.
  { subst once. by rewrite (webhook_failure_run env1 w p s i o). }
  assert (find_order i (orders (db once)) = Some o') as Hf'.
  { rewrite Honce. cbn [db store_order orders]. rows_found.
    apply find_order_update; [by eapply find_order_elem|done]. }
  split; [|split; [by rewrite Honce|split; [by rewrite Honce|]]].
  - subst twice. rewrite (webhook_failure_run env2 once p s i o') by done.
    rewrite Honce. cbn [fst db stripe].
    assert (apply_update o' None (failed_update (pi_id p)) = o') as -> by done.
    unfold store_order. cbn [orders products next_order_id].
    by rewrite update_rows_twice.
  - exists o'. split; [done|]. repeat split.
Qed.

(** X4: createPaymentIntent never writes the database nor the refunds.  A
    response other than 200 leaves the world as it was; a 200 was given the
    id of an order of the caller that is not paid, recorded exactly one new
    intent with the provider (the total in cents, the order id and the user
    id as metadata), and carries the client secret and the order id. *)
Theorem createPaymentIntent_effect env user orderId w :
  let res := run (createPaymentIntent user orderId) env w in
  db res.1 = db w
  ∧ refunds (stripe res.1) = refunds (stripe w)
  ∧ (∀ r, res.2 = Some r → code r ≠ 200%nat → res.1 = w)
  ∧ (∀ r, res.2 = Some r → code r = 200%nat →
       ∃ i o,
         orderId = Some i
         ∧ find_user_order i (user_id user) (orders (db w)) = Some o
         ∧ paymentStatus o ≠ paid
         ∧ intents (stripe res.1)
           = <[new_intent_id env := intent_for env user o]> (intents (stripe w))
         ∧ body r = IntentCreated (new_client_secret env) (id o)).
Proof.
  intros res. subst res. unfold_handlers. cbn.
  repeat (branch; cbn); as_props; repeat split; try done.
  all: try (intros r [= <-]; cbn; try done).
  all: try (by destruct w).
  all: try (intros Hc; by destruct Hc).
  intros _. eexists _, _. repeat split; try done.
Qed.





(** ** What stays true of every order *)

Lemma serve_update env r w :
  (∀ u b, r ≠ CreateOrder u b) →
  db (serve env r w).1 = db w
  ∨ ∃ o st u, o ∈ orders (db w) ∧ payment_columns_update o u
      ∧ db (serve env r w).1 = store_order (apply_update o st u) (db w).
Proof.
  intros Hr. destruct r as [u b|u i|u i b|u i|u i p|q|b]; [by destruct (Hr u b)|..].
  all: execute; try by left.
  all: right; rows_found; eexists _, _, _; (split; [eassumption|split; [|reflexivity]]).
  all: cbn; as_props; eauto.
  all: unfold payment_columns_update; cbn; try done.
  all: repeat match goal with |- context [if ?c then _ else _] => destruct c end; done.
Qed.

Lemma elem_of_update_rows o' rows x :
  x ∈ update_rows o' rows → x = o' ∨ x ∈ rows.
Proof.
  unfold update_rows. intros (row & -> & Hrow)%list_elem_of_fmap.
  destruct (id row =? id o'); auto.
Qed.

Lemma row_inv_update o st u :
  row_inv o → payment_columns_update o u → row_inv (apply_update o st u).
Proof.
  intros [Hs Hp] Hu. split; [exact Hs|].
  unfold payment_columns_update in Hu. cbn.
  destruct (u_paymentStatus u) as [[]|], (u_paymentId u) as [pid|];
    cbn; try done; try (by destruct Hu as [? ?]); try (by destruct Hu).
  destruct Hu as [_ Hpaid]. split; [done|].
  intros Hnone. apply Hp in Hnone. congruence.
Qed.

Lemma generate_order_number_nonempty env : generate_order_number env ≠ "".
Proof.
  intros Heq. apply (f_equal String.length) in Heq.
  unfold generate_order_number in Heq.
  rewrite string_length_app in Heq. cbn in Heq. lia.
Qed.

Lemma row_inv_new env user b l address d :
  0 < next_order_id d → l ≠ [] →
  validate_order (new_order env user b l address d) = true →
  row_inv (new_order env user b l address d).
Proof.
  intros Hnext Hl Hv. split; [|done].
  unfold order_sound. split_and!; try done.
  all: first [ apply generate_order_number_nonempty
             | unfold sigma_items; apply sum_items_fold
             | cbn; eauto ].
Qed.

Lemma reachable_rows w :
  reachable w →
  0 < next_order_id (db w) ∧ ∀ o, o ∈ orders (db w) → row_inv o.
Proof.
  induction 1 as [ps st|env r w _ [IHn IH]|w ps st _ IH]; [|destruct r as [u b| | | | | |]|done].
  { cbn. split; [lia|]. by intros o ?%elem_of_nil. }
  { unfold serve, handler.
    destruct (run (createOrder u b) env w) as [w' resp] eqn:Hrun.
    apply createOrder_effect in Hrun
      as [[-> _]|(l & address & _ & Hne & _ & Hok & -> & _)]; [done|].
    cbn [fst]. rewrite orders_created. cbn [db created].
    rewrite next_order_id_decrement_all. cbn. split; [lia|].
    intros o [Hin| ->%list_elem_of_singleton]%elem_of_app; [auto|].
    apply row_inv_new; [done..|].
    destruct (validate_order _) eqn:E; [done|]. destruct Hok. right. by left. }
  all: match goal with |- context [serve ?e ?r ?w0] =>
         destruct (serve_update e r w0 ltac:(by intros))
           as [->|(o & st & u & Hin & Hu & ->)] end; [done|].
  all: cbn; split; [done|]; intros x [->|Hx]%elem_of_update_rows; [|auto].
  all: apply row_inv_update; auto.
Qed.



(** X15: in a reachable world an order has paymentStatus pending if and
    only if it has no paymentId. *)
Theorem pending_iff_no_payment_id w o :
  reachable w → o ∈ orders (db w) →
  paymentStatus o = pay_pending ↔ paymentId o = None.
Proof. intros Hr Hin. by apply (reachable_rows w Hr). Qed.

(** X13: no request changes the id, the order number, the owner, the
    items, the amounts, the addresses or the payment method of an order of
    a reachable world, and the order stays in the table. *)
Theorem orders_keep_fixed_columns env r w i o :
  reachable w →
  find_order i (orders (db w)) = Some o →
  ∃ o', find_order i (orders (db (serve env r w).1)) = Some o'
      ∧ same_fixed_columns o o'.
Proof.
  intros Hreach Hf. apply reachable_wf in Hreach as Hwf.
  assert (same_fixed_columns o o) as Hsame by (by repeat split).
  destruct r as [u b| | | | | |].
  { unfold serve, handler.
    destruct (run (createOrder u b) env w) as [w' resp] eqn:Hrun.
    apply createOrder_effect in Hrun
      as [[-> _]|(l & address & _ & _ & _ & _ & -> & _)]; cbn [fst]; [eauto|].
    rewrite orders_created. exists o. split; [by apply find_order_app|done]. }
  all: match goal with |- context [serve ?e ?r ?w0] =>
         destruct (serve_update e r w0 ltac:(by intros))
           as [->|(u0 & st & u & Hin & _ & ->)] end; [eauto|].
  all: unfold store_order; cbn [orders].
  all: destruct (decide (id u0 = i)) as [Hid|Hid];
         [|rewrite find_order_update_ne by done; eauto].
  all: rewrite find_order_update; [|by eapply find_order_elem|done].
  all: apply find_order_Some in Hf as [Hio Ho].
  all: assert (u0 = o) as -> by (eapply same_row; [done..|congruence]).
  all: eexists; split; [done|]; by repeat split.
Qed.



(** X6: confirmPayment always answers.  A response other than 200 leaves
    the world as it was; a 200 was given an order id and an intent id, found
    the order among the caller's, and found the intent at the provider with
    status succeeded. *)
Theorem confirmPayment_changes_only_on_success env user orderId paymentIntentId w :
  let res := run (confirmPayment user orderId paymentIntentId) env w in
  is_Some res.2
  ∧ (∀ r, res.2 = Some r → code r ≠ 200%nat → res.1 = w)
  ∧ (∀ r, res.2 = Some r → code r = 200%nat →
       ∃ i pid o p,
         orderId = Some i ∧ paymentIntentId = Some pid
         ∧ find_user_order i (user_id user) (orders (db w)) = Some o
         ∧ intents (stripe w) !! pid = Some p ∧ pi_status p = succeeded).
Proof.
  intros res. subst res. unfold_handlers. cbn.
  repeat (branch; cbn); as_props; split_and!; try done.
  all: try (intros r [= <-]; cbn; try done).
  all: try (intros Hc; by destruct Hc).
  intros _. eexists _, _, _, _. split_and!; done.
Qed.

(** X7: a refund of a paid order that fails half-way.  When the provider
    call throws, nothing changes and the response is the 500; when the
    provider call succeeds and the update of the order throws, the refund
    stays recorded with the provider, the order stays as it was (paid), and
    the response is again the 500. *)
Theorem processRefund_provider_and_store_failures env b w i reason o pid :
  b_orderId b = Some i → i ≠ 0 → b_reason b = Some reason → reason ≠ "" →
  find_order i (orders (db w)) = Some o →
  paymentStatus o = paid → paymentId o = Some pid → pid ≠ "" →
  fault env 0 = false →
  let res := run (processRefund b) env w in
  (fault env 1 = true →
     res = (w, Some {| code := 500;
                       body := Message false "Error processing refund" |}))
  ∧ (fault env 1 = false → fault env 2 = true →
     res = ({| db := db w;
               stripe := {| intents := intents (stripe w);
                            refunds := refund_for env b o :: refunds (stripe w) |} |},
            Some {| code := 500;
                    body := Message false "Error processing refund" |})).
Proof.
  intros Hb Hi Hr Hreason Hf Hpaid Hpid Hne H0 res. subst res.
  unfold_handlers. rewrite Hb, Hr. cbn.
  assert (int_truthy i = true) as -> by (unfold int_truthy; destruct (Z.eqb_spec i 0); done).
  assert (str_truthy reason = true) as -> by (by destruct reason).
  cbn. rewrite H0, Hf. cbn. rewrite bool_decide_eq_true_2 by done. cbn.
  rewrite Hpid. assert (str_truthy pid = true) as -> by (by destruct pid). cbn.
  split.
  - intros ->. by destruct w.
  - intros H1 H2. rewrite H1. cbn. rewrite H2. cbn.
    unfold refund_for. rewrite Hpid. cbn.
    by destruct (b_amount b) as [a|]; [destruct (num_truthy a)|].
Qed.

(** X8: an accepted refund.  For a paid order with a payment id, and a
    request with an order id and a reason, processRefund records one refund
    with the provider, for the intent of the order and for the requested
    amount in cents (the total of the order when no amount, or a falsy one, is
    given); it leaves the order refunded and cancelled and answers 200 with
    the id, the amount and the status of the refund. *)
Theorem processRefund_accepted env b w i reason o pid :
  b_orderId b = Some i → i ≠ 0 → b_reason b = Some reason → reason ≠ "" →
  find_order i (orders (db w)) = Some o →
  paymentStatus o = paid → paymentId o = Some pid → pid ≠ "" →
  no_faults env →
  run (processRefund b) env w
  = ({| db := store_order (apply_update o (Some cancelled) refund_update) (db w);
        stripe := {| intents := intents (stripe w);
                     refunds := refund_for env b o :: refunds (stripe w) |} |},
     Some {| code := 200;
             body := RefundProcessed "Refund processed successfully"
                       (new_refund_id env)
                       (num_from_cents (refund_amount (refund_for env b o)))
                       "succeeded" |})
  ∧ refund_payment_intent (refund_for env b o) = pid
  ∧ refund_amount (refund_for env b o)
    = match b_amount b with
      | Some amount =>
          if num_truthy amount then num_cents amount
          else num_cents (totalAmount o)
      | None => num_cents (totalAmount o)
      end.
Proof.
  intros Hb Hi Hr Hreason Hf Hpaid Hpid Hne Hnf.
  split; [|split; [unfold refund_for; by rewrite Hpid|done]].
  unfold_handlers. rewrite Hb, Hr. cbn.
  assert (int_truthy i = true) as -> by (unfold int_truthy; destruct (Z.eqb_spec i 0); done).
  assert (str_truthy reason = true) as -> by (by destruct reason).
  cbn. rewrite Hnf, Hf. cbn. rewrite bool_decide_eq_true_2 by done. cbn.
  rewrite Hpid. assert (str_truthy pid = true) as -> by (by destruct pid). cbn.
  rewrite !Hnf. cbn. unfold refund_for. rewrite Hpid. cbn.
  by destruct (b_amount b) as [a|]; [destruct (num_truthy a)|].
Qed.



(** ** updateOrder *)

#[local] Arguments update_rows : simpl never.
#[local] Arguments find_order : simpl never.

Lemma updateOrder_run env user i b w o :
  find_order i (orders (db w)) = Some o →
  may_update user o = true →
  no_faults env →
  (∀ label, u_status (update_data b) = Some label → is_Some (parse_status label)) →
  let o' := apply_update o (u_status (update_data b) ≫= parse_status) (update_data b) in
  run (updateOrder user i b) env w
  = ({| db := store_order o' (db w); stripe := stripe w |},
     Some {| code := 200; body := OrderData (Some o') |}).
Proof.
  intros Hf Hmay Hnf Hlabel o'. subst o'. unfold may_update in Hmay.
  apply negb_true_iff in Hmay.
  assert (is_Some (find_order i (orders (db w)))) as Hsome by eauto.
  pose proof (find_order_Some _ _ _ Hf) as [Hid _].
  unfold_handlers. unfold update_data in *. cbn [u_status] in *.
  cbn. rewrite Hnf, Hf. cbn. rewrite Hmay. cbn. rewrite Hnf.
  destruct (b_status b) as [[|c label]|]; cbn in *.
  2: destruct (Hlabel _ eq_refl) as [st Hst]; rewrite Hst; cbn.
  all: rewrite Hnf; cbn; unfold store_order; cbn [orders].
  all: rewrite find_order_update; done.
Qed.

(** X10: a plain user who updates the order of another user changes
    nothing and is answered with 403 "Access denied". *)
Theorem updateOrder_forbidden env user i b w o :
  role user = role_user →
  find_order i (orders (db w)) = Some o →
  userId o ≠ user_id user →
  let res := run (updateOrder user i b) env w in
  res.1 = w
  ∧ (fault env 0 = false →
       res.2 = Some {| code := 403; body := Message false "Access denied" |}).
Proof.
  intros Hrole Hf Hne res. subst res. unfold_handlers. cbn. rewrite Hf.
  destruct (fault env 0); cbn; [done|].
  rewrite bool_decide_eq_true_2 by done.
  by assert ((userId o =? user_id user) = false) as -> by lia.
Qed.


(** X12: an updateOrder whose status is a label outside the ENUM changes
    nothing and is answered with 500 "Internal server error". *)
Theorem updateOrder_refuses_unknown_status env user i b w o label :
  find_order i (orders (db w)) = Some o →
  may_update user o = true →
  b_status b = Some label → label ≠ "" → parse_status label = None →
  let res := run (updateOrder user i b) env w in
  res.1 = w
  ∧ (fault env 0 = false →
       res.2 = Some {| code := 500; body := Message false "Internal server error" |}).
Proof.
  intros Hf Hmay Hb Hne Hparse res. subst res. unfold may_update in Hmay.
  apply negb_true_iff in Hmay.
  unfold_handlers. cbn. rewrite Hf.
  destruct (fault env 0); cbn; [done|]. rewrite Hmay, Hb. cbn.
  assert (str_truthy label = true) as -> by (by destruct label). rewrite Hparse.
  destruct (fault env 1); cbn; done.
Qed.

(** X18: Order.prototype.canBeCancelled is not consulted by updateOrder: an
    order that cannot be cancelled any more (shipped, delivered or already
    cancelled) is set to cancelled by an update request with status
    'cancelled' from anyone the access rule allows. *)
Theorem cancellation_eligibility_not_enforced env user i w o tracking notes_ :
  find_order i (orders (db w)) = Some o →
  may_update user o = true →
  no_faults env →
  canBeCancelled o = false →
  let b := {| b_status := Some "cancelled"; b_trackingNumber := tracking;
              b_update_notes := notes_ |} in
  ∃ o', run (updateOrder user i b) env w
        = ({| db := store_order o' (db w); stripe := stripe w |},
           Some {| code := 200; body := OrderData (Some o') |})
      ∧ status o' = cancelled.
Proof.
  intros Hf Hmay Hnf _ b. eexists. split.
  - apply updateOrder_run; try done. intros label [= <-]. by eexists.
  - done.
Qed.

(** ** createOrder, continued *)

(** X16: a createOrder request with items but without a shipping address
    changes nothing; its response, sent as soon as the transaction could be
    opened, is 400 "Shipping address is required", and no other response is
    ever sent. *)
Theorem createOrder_requires_address env user b w l :
  b_items b = ItemsArray l → l ≠ [] → b_shippingAddress b = None →
  let res := run (createOrder user b) env w in
  res.1 = w
  ∧ (fault env 0 = false →
       res.2 = Some {| code := 400;
                       body := Message false "Shipping address is required" |})
  ∧ (∀ r, res.2 = Some r → code r = 400%nat).
Proof.
  intros Hl Hne Ha res. subst res.
  unfold run, createOrder, sequelize_transaction, try_catch, bind, io,
    respond, ret, with_txn. cbn. rewrite Hl, Ha.
  destruct l as [|it l]; [done|].
  destruct (fault env 0); cbn; split_and!; try done; by intros r [= <-].
Qed.



End More.

(** * Properties of the middleware, the routes and the account handlers *)

Ltac unfold_site :=
  unfold site_serve, site_run, route, gated, protected, controller, protect,
    updateUser, deleteUser, user_update, user_destroy, User_findByPk,
    site_respond, site_try_catch, site_bind, site_ret, site_throw, site_io,
    lift, message.

Section SiteProofs.
Context `{JSNumber}.
Variable jwt_verify : string → option Z.
Variable users_accept : gmap Z Account → Z → Account → bool.

Lemma site_eta (s : Site) : {| site_world := site_world s; accounts := accounts s |} = s.
Proof. by destruct s. Qed.

Lemma protect_rejects authorization env s :
  authenticated jwt_verify authorization (local_accounts s) = None →
  ∃ s' text,
    protect jwt_verify authorization env s
    = (s', Ok (inl (message 401 false text)))
    ∧ same_site s s'
    ∧ text ∈ ["Not authorized, no token"; "Not authorized, token failed";
              "User not found"].
Proof.
  unfold protect, authenticated, site_try_catch, site_bind, User_findByPk,
    site_io, site_ret, site_throw.
  intros Hnone.
  destruct authorization as [header|]; [|eexists _, _; split_and!; [done..|set_solver]].
  destruct (str_truthy header && String.prefix "Bearer" header);
    [|eexists _, _; split_and!; [done..|set_solver]].
  destruct (split_on " " header !! 1%nat) as [t|];
    [|eexists _, _; split_and!; [done..|set_solver]].
  destruct (str_truthy t); [|eexists _, _; split_and!; [done..|set_solver]].
  destruct (jwt_verify t) as [i|]; [|eexists _, _; split_and!; [done..|set_solver]].
  destruct (local_accounts s !! i) as [a|] eqn:Ha; [done|].
  destruct (fault env (tick (order_local s))); cbn;
    [eexists _, _; split_and!; [done..|set_solver]|].
  rewrite Ha. eexists _, _; split_and!; [done..|set_solver].
Qed.

(** A request protect answers never reaches its handler. *)
Lemma route_stops_at_protect env authorization e s s' r :
  is_webhook e = false →
  protect jwt_verify authorization env
    {| order_local := {| world := site_world s; txn := TxNone; tick := 0 |};
       local_accounts := accounts s |}
  = (s', Ok (inl r)) →
  same_site {| order_local := {| world := site_world s; txn := TxNone; tick := 0 |};
               local_accounts := accounts s |} s' →
  site_serve jwt_verify users_accept env authorization e s = (s, Some r).
Proof.
  intros He Hp (Hw & _ & Ha). cbn in Hw, Ha.
  destruct e; try done.
  all: unfold site_serve, site_run, route, gated, protected, site_bind, site_ret.
  all: rewrite Hp; cbn; rewrite Hw, Ha; by destruct s.
Qed.

Lemma protect_passes authorization env s user :
  authenticated jwt_verify authorization (local_accounts s) = Some user →
  let l := order_local s in
  protect jwt_verify authorization env s
  = ({| order_local := {| world := world l; txn := txn l; tick := S (tick l) |};
        local_accounts := local_accounts s |},
     if fault env (tick l)
     then Ok (inl (message 401 false "Not authorized, token failed"))
     else Ok (inr user)).
Proof.
  unfold protect, authenticated, site_try_catch, site_bind, User_findByPk,
    site_io, site_ret, site_throw.
  intros Hsome.
  destruct authorization as [header|]; [|done].
  destruct (str_truthy header && String.prefix "Bearer" header); [|done].
  destruct (split_on " " header !! 1%nat) as [t|]; [|done].
  destruct (str_truthy t); [|done].
  destruct (jwt_verify t) as [i|]; [|done].
  destruct (local_accounts s !! i) as [a|] eqn:Ha; [|done]. cbn in Hsome.
  simplify_eq. cbn.
  destruct (fault env (tick (order_local s))); cbn; [done|]. by rewrite Ha.
Qed.

(** X20: every route but the webhook is behind protect: a request whose
    Authorization header does not authenticate (no header, a header that
    does not start with Bearer, no token after the space, a token that does
    not verify, the id of no account) is answered with 401 and one of the
    three messages of protect, and changes neither the orders, the
    products, the provider's records nor the accounts, whatever the route
    and whatever fails. *)
Theorem unauthenticated_requests_are_rejected env authorization e s :
  is_webhook e = false →
  authenticated jwt_verify authorization (accounts s) = None →
  let res := site_serve jwt_verify users_accept env authorization e s in
  res.1 = s
  ∧ ∃ text, res.2 = Some (message 401 false text)
      ∧ text ∈ ["Not authorized, no token"; "Not authorized, token failed";
                "User not found"].
Proof.
  intros He Hnone res. subst res.
  destruct (protect_rejects authorization env
              {| order_local := {| world := site_world s; txn := TxNone; tick := 0 |};
                 local_accounts := accounts s |} Hnone)
    as (s' & text & Hp & Hsame & Htext).
  rewrite (route_stops_at_protect env authorization e s s' _ He Hp Hsame). eauto.
Qed.

(** X22: the role gates of the routes: an authenticated plain user who
    asks for a refund or for the update of an account, and anyone but a
    super admin who asks for the deletion of an account, is answered with
    403, and nothing changes. *)
Theorem role_gates_reject env authorization e s user :
  authenticated jwt_verify authorization (accounts s) = Some user →
  fault env 0 = false →
  match e with
  | POST_payments_refund _ | PUT_admin_users_id _ _ => role user = role_user
  | DELETE_admin_users_id _ => role user ≠ role_super_admin
  | _ => False
  end →
  let res := site_serve jwt_verify users_accept env authorization e s in
  res.1 = s
  ∧ ∃ text, res.2 = Some (message 403 false text).
Proof.
  intros Hauth H0 He res. subst res.
  pose proof (protect_passes authorization env
              {| order_local := {| world := site_world s; txn := TxNone; tick := 0 |};
                 local_accounts := accounts s |} user Hauth) as Hp.
  cbn in Hp. rewrite H0 in Hp.
  destruct e; try done.
  all: unfold site_serve, site_run, route, gated, protected, site_bind, site_ret.
  all: rewrite Hp; cbn.
  1-2: rewrite He; cbn; split; [by destruct s|eauto].
  rewrite bool_decide_eq_false_2 by done. cbn. split; [by destruct s|eauto].
Qed.


(** X21: protect does not read isActive: the token of a deactivated
    account authenticates like any other, and the request goes on as that
    user. *)
Theorem inactive_accounts_pass_protect env header t i a s :
  str_truthy header && String.prefix "Bearer" header = true →
  split_on " " header !! 1%nat = Some t → t ≠ "" →
  jwt_verify t = Some i →
  local_accounts s !! i = Some a → isActive a = false →
  fault env (tick (order_local s)) = false →
  ∃ s', protect jwt_verify (Some header) env s = (s', Ok (inr (as_user i a)))
        ∧ same_site s s'.
Proof.
  intros Hh Ht Hne Hv Ha _ Hf.
  assert (authenticated jwt_verify (Some header) (local_accounts s)
          = Some (as_user i a)) as Hauth.
  { unfold authenticated. rewrite Hh, Ht.
    assert (str_truthy t = true) as -> by (by destruct t). by rewrite Hv, Ha. }
  rewrite (protect_passes _ env s _ Hauth). cbn. rewrite Hf. by eexists.
Qed.

(** X23: super admin accounts are protected: deleteUser never deletes
    one, and updateUser changes one only for a super admin; the request
    changes nothing and is answered with 403. *)
Theorem super_admin_accounts_are_protected env s i a :
  accounts s !! i = Some a → account_role a = role_super_admin →
  (let res := site_run (deleteUser i) env s in
   res.1 = s
   ∧ (fault env 0 = false →
        res.2 = Some (message 403 false "Cannot delete super admin user")))
  ∧ (∀ user b,
       role user ≠ role_super_admin →
       let res := site_run (updateUser users_accept user i b) env s in
       res.1 = s
       ∧ (fault env 0 = false →
            res.2 = Some (message 403 false "Cannot modify super admin user"))).
Proof.
  intros Ha Hr. split; [|intros user b Hu].
  all: unfold_site; cbn; rewrite Ha.
  all: destruct (fault env 0); cbn; [split; [by destruct s|done]|].
  all: rewrite bool_decide_eq_true_2 by done; cbn.
  2: rewrite bool_decide_eq_false_2 by done; cbn.
  all: split; [by destruct s|done].
Qed.

Lemma parse_role_truthy label r : parse_role label = Some r → str_truthy label = true.
Proof. by destruct label. Qed.

(** X24: updateUser writes whatever role of the ENUM the request
    names: anyone the routes and the super admin rule let through (an admin
    included) can give any account that is not a super admin's any role,
    super_admin included; the other columns follow the request, and the
    orders, the products and the provider's records stay as they were. *)
Theorem updateUser_sets_any_role env user i b s a label r :
  accounts s !! i = Some a →
  account_role a ≠ role_super_admin ∨ role user = role_super_admin →
  b_role b = Some label → parse_role label = Some r →
  users_accept (accounts s) i (apply_user_update a b (Some r)) = true →
  no_faults env →
  let a' := apply_user_update a b (Some r) in
  site_run (updateUser users_accept user i b) env s
  = ({| site_world := site_world s; accounts := <[i := a']> (accounts s) |},
     Some {| site_code := 200; site_body := UserData (Some (i, a')) |})
  ∧ account_role a' = r.
Proof.
  intros Ha Hmay Hb Hparse Hok Hnf a'. split; [|done]. subst a'.
  unfold_site. cbn. rewrite Hnf, Ha. cbn.
  assert (bool_decide (account_role a = role_super_admin)
          && negb (bool_decide (role user = role_super_admin)) = false) as ->.
  { destruct Hmay as [Hm|Hm].
    - by rewrite bool_decide_eq_false_2.
    - rewrite (bool_decide_eq_true_2 (role user = _)) by done. apply andb_false_r. }
  cbn. rewrite Hnf, Hb. cbn. rewrite (parse_role_truthy _ _ Hparse), Hparse, Hok.
  cbn. rewrite Hnf. cbn. by rewrite lookup_insert_eq.
Qed.


(** X26: once an account is deleted, a request with a token of that
    account is answered with 401 "User not found" on every route but the
    webhook ("Not authorized, token failed" when the lookup of the account
    throws), and changes nothing. *)
Theorem deleted_user_is_locked_out env1 env2 s i a header t e :
  accounts s !! i = Some a → account_role a ≠ role_super_admin →
  no_faults env1 →
  str_truthy header && String.prefix "Bearer" header = true →
  split_on " " header !! 1%nat = Some t → t ≠ "" →
  jwt_verify t = Some i →
  is_webhook e = false →
  let s' := (site_run (deleteUser i) env1 s).1 in
  let res := site_serve jwt_verify users_accept env2 (Some header) e s' in
  res.1 = s'
  ∧ res.2 = Some (message 401 false
                    (if fault env2 0 then "Not authorized, token failed"
                     else "User not found")).
Proof.
  intros Ha Hr Hnf Hh Ht Hne Hv He s' res.
  assert (accounts s' = delete i (accounts s)) as Hacc.
  { subst s'. unfold_site. cbn. rewrite Hnf, Ha. cbn.
    rewrite bool_decide_eq_false_2 by done. cbn. by rewrite Hnf. }
  subst res. clearbody s'.
  assert (str_truthy t = true) as Htruthy by (by destruct t).
  erewrite (route_stops_at_protect env2 (Some header) e s' _ _ He); [done|..].
  - unfold protect, site_try_catch, site_bind, User_findByPk, site_io, site_ret,
      site_throw.
    rewrite Hh, Ht, Htruthy, Hv. cbn. rewrite Hacc, lookup_delete_eq.
    destruct (fault env2 0); reflexivity.
  - done.
Qed.

(** X27: adminOrSuperAdmin lets through exactly the users that admin
    or superAdmin lets through. *)
Theorem adminOrSuperAdmin_is_union user :
  adminOrSuperAdmin user = None ↔ admin user = None ∨ superAdmin user = None.
Proof.
  unfold adminOrSuperAdmin, admin, superAdmin.
  destruct user as [u|]; cbn; [|split; [done|by intros [?|?]]].
  destruct (role u); cbn; (split; [intros ?; first [done|auto]|by intros [?|?]]).
Qed.

End SiteProofs.

(** * From the routes to the controllers *)

Section Behind.
Context `{JSNumber}.
Variable jwt_verify : string → option Z.
Variable users_accept : gmap Z Account → Z → Account → bool.

Lemma shifts_ret {A} (a : A) : shifts (ret a).
Proof. by intros env w t k. Qed.

Lemma shifts_throw {A} (e : Exn) : shifts (throw (A := A) e).
Proof. by intros env w t k. Qed.

Lemma shifts_bind {A B} (m : M A) (f : A → M B) :
  shifts m → (∀ a, shifts (f a)) → shifts (bind m f).
Proof.
  intros Hm Hf env w t k. unfold bind. rewrite Hm.
  destruct (m (after_protect env) _) as [[w' t' k'] [a|e]]; cbn; [apply Hf|done].
Qed.

Lemma shifts_try_catch {A} (m : M A) (f : Exn → M A) :
  shifts m → (∀ e, shifts (f e)) → shifts (try_catch m f).
Proof.
  intros Hm Hf env w t k. unfold try_catch. rewrite Hm.
  destruct (m (after_protect env) _) as [[w' t' k'] [a|e]]; cbn; [done|apply Hf].
Qed.

Lemma shifts_io {A} (e : Exn) (m : M A) : shifts m → shifts (io e m).
Proof.
  intros Hm env w t k. unfold io. cbn.
  destruct (fault env (S k)); [done|apply Hm].
Qed.

Ltac shifts_leaf :=
  intros ? ? ? ?; cbn;
  repeat match goal with
         | |- context [match ?x with _ => _ end] => destruct x; cbn
         end;
  reflexivity.

Ltac shifts_step :=
  first [ apply shifts_ret | apply shifts_throw | apply shifts_bind
        | apply shifts_try_catch | apply shifts_io
        | match goal with
          | |- ∀ _, _ => intros ?
          | |- shifts (match ?x with _ => _ end) => destruct x
          | |- shifts (let _ := _ in _) => cbv zeta
          end
        | shifts_leaf ].

Lemma shifts_decrement_items l : shifts (decrement_items l).
Proof.
  induction l as [|it l IH]; cbn [decrement_items]; [apply shifts_ret|].
  apply shifts_bind; [|done]. unfold Product_decrement. repeat shifts_step.
Qed.

Lemma shifts_Order_create a : shifts (Order_create a).
Proof.
  unfold Order_create. apply shifts_io. intros env w t k. cbn.
  change (beforeCreate (after_protect env) a) with (beforeCreate env a).
  destruct t as [|work|]; [done| |done].
  destruct (negb _); [done|]. by destruct (order_number_taken _ _).
Qed.

Lemma shifts_handler r : shifts (handler r).
Proof.
  destruct r; unfold handler, createOrder, getOrderById, updateOrder,
    createPaymentIntent, confirmPayment, handleWebhook, handlePaymentSuccess,
    handlePaymentFailure, processRefund, stripe_webhooks_constructEvent,
    Order_findByPk_text, Order_findByPk, Order_findOne, order_update,
    stripe_paymentIntents_create, stripe_paymentIntents_retrieve,
    stripe_refunds_create, sequelize_transaction, transaction_commit,
    transaction_rollback, respond.
  all: repeat first [ apply shifts_decrement_items | apply shifts_Order_create
                    | shifts_step ].
Qed.

(** X28: behind protect a controller does what it does on its own.  An
    authenticated request to a route of the order or payment controllers
    (for the refund route, from an admin or a super admin) gives the
    response and leaves the world that the controller gives and leaves for
    the authenticated user, its I/O steps counted from after the lookup of
    the account; the accounts stay as they were. *)
Theorem authenticated_request_reaches_controller env authorization e s user r :
  authenticated jwt_verify authorization (accounts s) = Some user →
  fault env 0 = false →
  controller_request user e = Some r →
  (∀ b, e = POST_payments_refund b → role user ≠ role_user) →
  site_serve jwt_verify users_accept env authorization e s
  = through_route (accounts s) (serve (after_protect env) r (site_world s)).
Proof.
  intros Hauth H0 Hr Hgate.
  pose proof (protect_passes jwt_verify authorization env
              {| order_local := {| world := site_world s; txn := TxNone; tick := 0 |};
                 local_accounts := accounts s |} user Hauth) as Hp.
  cbn in Hp. rewrite H0 in Hp.
  pose proof (shifts_handler r env (site_world s) TxNone 0%nat) as Hs.
  unfold through_route, serve, run.
  destruct (handler r (after_protect env) _) as [[w' t' k'] out].
  cbn [fst snd] in Hs.
  destruct e; cbn in Hr; simplify_eq.
  all: unfold site_serve, site_run, route, gated, protected, controller, site_bind,
         site_ret, lift; rewrite Hp; cbn [adminOrSuperAdmin].
  6: { assert (bool_decide (role user = role_admin)
               || bool_decide (role user = role_super_admin) = true) as ->.
       { specialize (Hgate _ eq_refl). by destruct (role user). }
       cbn [handler] in Hs. cbn. rewrite Hs. by destruct out. }
  all: cbn [handler] in Hs; cbn; rewrite Hs; by destruct out.
Qed.

(** X29: the webhook route is public: whatever the Authorization header,
    the response and the world are those of handleWebhook, and the accounts
    stay as they were. *)
Theorem webhook_route_is_public env authorization q s :
  site_serve jwt_verify users_accept env authorization (POST_payments_webhook q) s
  = through_route (accounts s) (serve env (Webhook q) (site_world s)).
Proof.
  unfold through_route, serve, run, site_serve, site_run, route, controller,
    site_bind, site_ret, lift. cbn [handler].
  by destruct (handleWebhook q env _) as [[w' t' k'] [r|e]].
Qed.

End Behind.

(** * The further properties on the example shop *)



Lemma webhook_failure_effect_witness :
  let once := (serve Example.env0 (Webhook (failed_event Example.intent1)) Example.w2).1 in
  let twice := (serve Example.env1 (Webhook (failed_event Example.intent1)) once).1 in
  twice = once
  ∧ products (db once) = products (db Example.w2) ∧ stripe once = stripe Example.w2
  ∧ ∃ o', find_order 1 (orders (db once)) = Some o'
      ∧ paymentStatus o' = failed ∧ paymentId o' = Some "pi_1"
      ∧ status o' = status Example.order1
      ∧ trackingNumber o' = trackingNumber Example.order1
      ∧ notes o' = notes Example.order1 ∧ same_fixed_columns Example.order1 o'.
Proof.
  apply (webhook_failure_effect Example.env0 Example.env1 Example.w2
           Example.intent1 "1" 1 Example.order1).
  - intros k. reflexivity.
  - intros k. reflexivity.
  - reflexivity.
  - reflexivity.
  - vm_compute. reflexivity.
Defined.

Lemma createPaymentIntent_effect_witness :
  ∃ i o,
    Some 1 = Some i
    ∧ find_user_order i 1 (orders (db Example.w2)) = Some o
    ∧ paymentStatus o ≠ paid
    ∧ intents (stripe Example.w3)
      = <["pi_1" := intent_for Example.env0 Example.alice o]>
          (intents (stripe Example.w2))
    ∧ IntentCreated (H := Qnum) "pi_1_secret" 1 = IntentCreated "pi_1_secret" (id o).
Proof.
  destruct (createPaymentIntent_effect Example.env0 Example.alice (Some 1) Example.w2)
    as (_ & _ & _ & Hok).
  apply (Hok {| code := 200; body := IntentCreated "pi_1_secret" 1 |});
    [vm_compute; reflexivity|reflexivity].
Defined.


Lemma confirmPayment_changes_only_on_success_witness :
  ∃ i pid o p,
    Some 1 = Some i ∧ Some "pi_1" = Some pid
    ∧ find_user_order i 1 (orders (db Example.w4)) = Some o
    ∧ intents (stripe Example.w4) !! pid = Some p ∧ pi_status p = succeeded.
Proof.
  destruct (confirmPayment_changes_only_on_success Example.env0 Example.alice
              (Some 1) (Some "pi_1") Example.w4) as (_ & _ & Hok).
  apply (Hok {| code := 200;
                body := PaymentConfirmed "Payment confirmed successfully"
                          (apply_update Example.order1 (Some processing)
                             (paid_update "pi_1")) |});
    [vm_compute; reflexivity|reflexivity].
Defined.

Lemma processRefund_provider_and_store_failures_witness :
  run (processRefund Example.refund1) (Example.failing_at 2) Example.w5
  = ({| db := db Example.w5;
        stripe :=
          {| intents := intents (stripe Example.w5);
             refunds :=
               refund_for (Example.failing_at 2) Example.refund1
                 (apply_update Example.order1 (Some processing) (paid_update "pi_1"))
               :: refunds (stripe Example.w5) |} |},
     Some {| code := 500; body := Message false "Error processing refund" |}).
Proof.
  apply (processRefund_provider_and_store_failures (Example.failing_at 2)
           Example.refund1 Example.w5 1 "damaged"
           (apply_update Example.order1 (Some processing) (paid_update "pi_1"))
           "pi_1").
  - reflexivity.
  - discriminate.
  - reflexivity.
  - discriminate.
  - vm_compute. reflexivity.
  - reflexivity.
  - reflexivity.
  - discriminate.
  - reflexivity.
  - reflexivity.
  - reflexivity.
Defined.

Lemma processRefund_accepted_witness :
  let o := apply_update Example.order1 (Some processing) (paid_update "pi_1") in
  run (processRefund Example.refund1) Example.env0 Example.w5
  = ({| db := store_order (apply_update o (Some cancelled) refund_update)
                (db Example.w5);
        stripe := {| intents := intents (stripe Example.w5);
                     refunds := refund_for Example.env0 Example.refund1 o
                                :: refunds (stripe Example.w5) |} |},
     Some {| code := 200;
             body := RefundProcessed "Refund processed successfully" "re_1"
                       (num_from_cents
                          (refund_amount (refund_for Example.env0 Example.refund1 o)))
                       "succeeded" |})
  ∧ refund_payment_intent (refund_for Example.env0 Example.refund1 o) = "pi_1"
  ∧ refund_amount (refund_for Example.env0 Example.refund1 o)
    = num_cents (totalAmount o).
Proof.
  apply (processRefund_accepted Example.env0 Example.refund1 Example.w5 1 "damaged"
           (apply_update Example.order1 (Some processing) (paid_update "pi_1"))
           "pi_1").
  - reflexivity.
  - discriminate.
  - reflexivity.
  - discriminate.
  - vm_compute. reflexivity.
  - reflexivity.
  - reflexivity.
  - discriminate.
  - intros k. reflexivity.
Defined.


Lemma updateOrder_forbidden_witness :
  let res := run (updateOrder Example.bob 1 Staff.mark_delivered) Example.env0
               Example.w2 in
  res.1 = Example.w2
  ∧ res.2 = Some {| code := 403; body := Message false "Access denied" |}.
Proof.
  destruct (updateOrder_forbidden Example.env0 Example.bob 1 Staff.mark_delivered
              Example.w2 Example.order1) as [Hw Hr].
  - reflexivity.
  - vm_compute. reflexivity.
  - discriminate.
  - split; [exact Hw|]. apply Hr. reflexivity.
Defined.


Lemma updateOrder_refuses_unknown_status_witness :
  let b := {| b_status := Some "lost"; b_trackingNumber := None;
              b_update_notes := None |} in
  let res := run (updateOrder Example.alice 1 b) Example.env0 Example.w2 in
  res.1 = Example.w2
  ∧ res.2 = Some {| code := 500; body := Message false "Internal server error" |}.
Proof.
  intros b.
  destruct (updateOrder_refuses_unknown_status Example.env0 Example.alice 1 b
              Example.w2 Example.order1 "lost") as [Hw Hr].
  - vm_compute. reflexivity.
  - reflexivity.
  - reflexivity.
  - discriminate.
  - reflexivity.
  - split; [exact Hw|]. apply Hr. reflexivity.
Defined.

Lemma orders_keep_fixed_columns_witness :
  ∃ o', find_order 1 (orders (db Example.w5)) = Some o'
      ∧ same_fixed_columns Example.order1 o'.
Proof.
  apply (orders_keep_fixed_columns Example.env0
           (ConfirmPayment Example.alice (Some 1) (Some "pi_1")) Example.w4 1
           Example.order1).
  - apply (reach_external Example.w3). do 3 apply reach_serve. apply reach_init.
  - vm_compute. reflexivity.
Defined.


Lemma pending_iff_no_payment_id_witness :
  paymentStatus (apply_update Example.order1 (Some processing) (paid_update "pi_1"))
  = pay_pending
  ↔ paymentId (apply_update Example.order1 (Some processing) (paid_update "pi_1"))
    = None.
Proof.
  apply (pending_iff_no_payment_id Example.w5).
  - apply reach_serve. apply (reach_external Example.w3).
    do 3 apply reach_serve. apply reach_init.
  - apply list_elem_of_In. vm_compute. left. reflexivity.
Defined.

Lemma createOrder_requires_address_witness :
  let res := run (createOrder Example.alice Staff.no_address) Example.env0 Example.w0 in
  res.1 = Example.w0
  ∧ res.2 = Some {| code := 400;
                    body := Message false "Shipping address is required" |}.
Proof.
  destruct (createOrder_requires_address Example.env0 Example.alice Staff.no_address
              Example.w0 Example.items0) as (Hw & Hr & _).
  - reflexivity.
  - discriminate.
  - reflexivity.
  - split; [exact Hw|]. apply Hr. reflexivity.
Defined.


Lemma cancellation_eligibility_not_enforced_witness :
  status Staff.order1_delivered = delivered
  ∧ ∃ o', run (updateOrder Example.alice 1
                 {| b_status := Some "cancelled"; b_trackingNumber := None;
                    b_update_notes := None |}) Example.env0 Staff.w_delivered
          = ({| db := store_order o' (db Staff.w_delivered);
                stripe := stripe Staff.w_delivered |},
             Some {| code := 200; body := OrderData (Some o') |})
        ∧ status o' = cancelled.
Proof.
  split; [reflexivity|].
  apply (cancellation_eligibility_not_enforced Example.env0 Example.alice 1
           Staff.w_delivered Staff.order1_delivered None None).
  - vm_compute. reflexivity.
  - reflexivity.
  - intros k. reflexivity.
  - reflexivity.
Defined.


(** ** The routes on the example shop *)

Lemma unauthenticated_requests_are_rejected_witness :
  let res := site_serve Staff.jwt_verify Staff.users_accept Example.env0
               (Some "Bearer token-mallory") (POST_orders Example.body0)
               Staff.site0 in
  res.1 = Staff.site0
  ∧ ∃ text, res.2 = Some (message 401 false text)
      ∧ text ∈ ["Not authorized, no token"; "Not authorized, token failed";
                "User not found"].
Proof.
  apply unauthenticated_requests_are_rejected; [reflexivity|].
  vm_compute. reflexivity.
Defined.

Lemma inactive_accounts_pass_protect_witness :
  let s := {| order_local := {| world := Example.w5; txn := TxNone; tick := 0 |};
              local_accounts := accounts Staff.site0 |} in
  ∃ s', protect Staff.jwt_verify (Some "Bearer token-dave") Example.env0 s
        = (s', Ok (inr (as_user 4 Staff.dave)))
      ∧ same_site s s'.
Proof.
  apply (inactive_accounts_pass_protect Staff.jwt_verify Example.env0
           "Bearer token-dave" "token-dave" 4 Staff.dave).
  - reflexivity.
  - reflexivity.
  - discriminate.
  - reflexivity.
  - vm_compute. reflexivity.
  - reflexivity.
  - reflexivity.
Defined.

Lemma role_gates_reject_witness :
  let res := site_serve Staff.jwt_verify Staff.users_accept Example.env0
               (Some "Bearer token-alice") (POST_payments_refund Example.refund1)
               Staff.site0 in
  res.1 = Staff.site0
  ∧ ∃ text, res.2 = Some (message 403 false text).
Proof.
  apply (role_gates_reject Staff.jwt_verify Staff.users_accept Example.env0
           (Some "Bearer token-alice") (POST_payments_refund Example.refund1)
           Staff.site0 Example.alice).
  - vm_compute. reflexivity.
  - reflexivity.
  - reflexivity.
Defined.

Lemma super_admin_accounts_are_protected_witness :
  let res := site_run (updateUser Staff.users_accept (as_user 3 Staff.carol) 9
                         Staff.promote) Example.env0 Staff.site0 in
  res.1 = Staff.site0
  ∧ res.2 = Some (message 403 false "Cannot modify super admin user").
Proof.
  destruct (super_admin_accounts_are_protected Staff.users_accept Example.env0
              Staff.site0 9 Staff.root) as [_ Hupdate].
  - vm_compute. reflexivity.
  - reflexivity.
  - destruct (Hupdate (as_user 3 Staff.carol) Staff.promote) as [Hs Hr].
    + discriminate.
    + split; [exact Hs|]. apply Hr. reflexivity.
Defined.

Lemma updateUser_sets_any_role_witness :
  let a' := apply_user_update (Staff.customer "Alice" "alice@example.com")
              Staff.promote (Some role_super_admin) in
  site_run (updateUser Staff.users_accept (as_user 3 Staff.carol) 1 Staff.promote)
    Example.env0 Staff.site0
  = ({| site_world := site_world Staff.site0;
        accounts := <[1 := a']> (accounts Staff.site0) |},
     Some {| site_code := 200; site_body := UserData (Some (1, a')) |})
  ∧ account_role a' = role_super_admin.
Proof.
  apply (updateUser_sets_any_role Staff.users_accept Example.env0
           (as_user 3 Staff.carol) 1 Staff.promote Staff.site0
           (Staff.customer "Alice" "alice@example.com") "super_admin").
  - vm_compute. reflexivity.
  - left. discriminate.
  - reflexivity.
  - reflexivity.
  - reflexivity.
  - intros k. reflexivity.
Defined.


Lemma deleted_user_is_locked_out_witness :
  let s' := (site_run (deleteUser 1) Example.env0 Staff.site0).1 in
  let res := site_serve Staff.jwt_verify Staff.users_accept Example.env1
               (Some "Bearer token-alice") (GET_orders_id 1) s' in
  res.1 = s' ∧ res.2 = Some (message 401 false "User not found").
Proof.
  apply (deleted_user_is_locked_out Staff.jwt_verify Staff.users_accept
           Example.env0 Example.env1 Staff.site0 1
           (Staff.customer "Alice" "alice@example.com")
           "Bearer token-alice" "token-alice" (GET_orders_id 1)).
  - vm_compute. reflexivity.
  - discriminate.
  - intros k. reflexivity.
  - reflexivity.
  - reflexivity.
  - discriminate.
  - reflexivity.
  - reflexivity.
Defined.

Lemma authenticated_request_reaches_controller_witness :
  site_serve Staff.jwt_verify Staff.users_accept Example.env0
    (Some "Bearer token-carol") (POST_payments_refund Example.refund1) Staff.site0
  = through_route (accounts Staff.site0)
      (serve (after_protect Example.env0) (ProcessRefund Example.refund1) Example.w5).
Proof.
  apply (authenticated_request_reaches_controller Staff.jwt_verify Staff.users_accept
           Example.env0 (Some "Bearer token-carol")
           (POST_payments_refund Example.refund1) Staff.site0 (as_user 3 Staff.carol)).
  - vm_compute. reflexivity.
  - reflexivity.
  - reflexivity.
  - intros b _. discriminate.
Defined.
